(** * AgentFormer trainer: a shallow embedding of [trainer.py]

    The trainer is glue code around three external systems: a tensor
    library, a training-loop framework and a process pool.  The embedding
    keeps the control flow, the indexing and the error behaviour of
    [trainer.py] and takes the external operations (floating-point
    arithmetic, tensor primitives, the network, [eval_one_seq]) as
    interfaces. *)

From Stdlib Require Import QArith Qround.
From stdpp Require Import gmap strings list fin_maps.

Open Scope string_scope.
Open Scope nat_scope.

(** ** Python exceptions and results *)

Inductive exn :=
  | NotImplementedError
  | IndexError
  | ValueError
  | KeyError (key : string)
  | AttributeError
  | AssertionError
  | ExternalError (tag : string).

Inductive result (A : Type) :=
  | Ok (a : A)
  | Raise (e : exn).
Arguments Ok {A} a.
Arguments Raise {A} e.

#[global] Instance exn_eq_dec : EqDecision exn.
Proof. solve_decision. Defined.

#[global] Instance result_ret : MRet result := fun _ a => Ok a.
#[global] Instance result_bind : MBind result := fun _ _ f r =>
  match r with
  | Ok a => f a
  | Raise e => Raise e
  end.
#[global] Instance result_fmap : FMap result := fun _ _ f r =>
  match r with
  | Ok a => Ok (f a)
  | Raise e => Raise e
  end.

Definition is_ok {A} (r : result A) : bool :=
  match r with Ok _ => true | Raise _ => false end.

(** Code that changes a state of type [S] and may raise: the state reached
    when the exception is raised is kept. *)
Definition ST (S A : Type) : Type := S → S * result A.

#[global] Instance ST_ret {S} : MRet (ST S) := fun _ a s => (s, Ok a).
#[global] Instance ST_bind {S} : MBind (ST S) := fun _ _ f m s =>
  match m s with
  | (s', Ok a) => f a s'
  | (s', Raise e) => (s', Raise e)
  end.

Definition lift {S A} (r : result A) : ST S A := fun s => (s, r).
Definition get_state {S} : ST S S := fun s => (s, Ok s).

Fixpoint forT {S A} (l : list A) (body : A → ST S unit) : ST S unit :=
  match l with
  | [] => mret tt
  | x :: l' => body x;; forT l' body
  end.

Fixpoint mapT {S A B} (l : list A) (body : A → ST S B) : ST S (list B) :=
  match l with
  | [] => mret []
  | x :: l' => y ← body x; ys ← mapT l' body; mret (y :: ys)
  end.

(** A computation that leaves the part [p] of the state as it was, also
    when it raises. *)
Definition preserves {S A X} (p : S → X) (m : ST S A) : Prop :=
  ∀ s, p (m s).1 = p s.

(** [l[i]] on a Python list or along the first axis of an array. *)
Definition py_index {A} (l : list A) (i : nat) : result A :=
  match l !! i with
  | Some x => Ok x
  | None => Raise IndexError
  end.

(** Sequential loop that collects one value per element and stops at the
    first exception. *)
Fixpoint mapR {A B} (f : A → result B) (l : list A) : result (list B) :=
  match l with
  | [] => Ok []
  | x :: l' => y ← f x; ys ← mapR f l'; Ok (y :: ys)
  end.

(** [enumerate(l)] *)
Definition enumerate {A} (l : list A) : list (nat * A) :=
  zip (seq 0 (length l)) l.

(** [needle in hay] on Python strings. *)
Fixpoint str_contains (needle hay : string) : bool :=
  String.prefix needle hay
  || match hay with
     | EmptyString => false
     | String _ hay' => str_contains needle hay'
     end.

(** ** Numbers

    Array entries, losses and metrics are IEEE doubles in the program.  The
    embedding never looks inside them: it uses the operations below, so
    every statement holds for whatever arithmetic implements them. *)

Class Numeric (num : Type) := {
  num_eqb : num → num → bool;       (* [==] *)
  num_lit : Q → num;                (* a decimal literal such as [1.0] *)
  num_mul : num → num → num;        (* [*] *)
  num_div : num → num → num;        (* [/] *)
  num_of_nat : nat → num;           (* an integer used as a float *)
  np_sum : list num → num;          (* [np.sum] of a 1-d array *)
  np_mean : list num → num;         (* [np.mean] of a 1-d array *)
}.

Section Format.
Context {num : Type} `{!Numeric num}.

(** ** Arrays *)

(** A 2-d array of shape [(length rows, ncols)]. *)
Record ndarray := { ncols : nat; rows : list (list num) }.

(** What [format_agentformer_trajectories] returns: [np.array([])], of
    shape [(0,)], or a 2-d table. *)
Inductive formatted :=
  | EmptyArray
  | Table (a : ndarray).

(** The batch dictionary, restricted to the entries [trainer.py] reads. *)
Record batch := {
  valid_id : list num;
  pred_mask : option (list num);
  fut_data : list ndarray;
  pre_data : list ndarray;
  frame : num;
  frame_scale_of : num;
  seq_name : string;
}.

(** A trajectory tensor of shape [(agents, timesteps, 2)]:
    [trajectory[i, j]] is the position of agent [i] at step [j]. *)
Definition trajectory := list (list (num * num)).

(** [torch.flip(trajectory, [0, 1])] *)
Definition flip01 (t : trajectory) : trajectory := reverse (reverse <$> t).

(** [trajectory[i, j]] *)
Definition traj_at (t : trajectory) (i j : nat) : result (num * num) :=
  r ← py_index t i; py_index r j.

(** [curr_data[curr_data[:, 1] == track_id]]: the rows whose column 1 equals
    the track id; column 1 must exist. *)
Definition track_matches (track_id : num) (r : list num) : bool :=
  match r !! 1 with
  | Some v => num_eqb v track_id
  | None => false
  end.

Definition select_track (curr : ndarray) (track_id : num) : result (list (list num)) :=
  if decide (2 ≤ ncols curr)
  then Ok (filter (fun r => track_matches track_id r = true) (rows curr))
  else Raise IndexError.

(** The result of [.squeeze()] on the selected rows, which have shape
    [(k, c)] with [2 ≤ c]: one row becomes a 1-d array, any other number
    of rows stays 2-d. *)
Inductive squeezed :=
  | Row1 (r : list num)
  | Mat2 (c : nat) (rs : list (list num)).

Definition squeeze (c : nat) (sel : list (list num)) : squeezed :=
  match sel with
  | [r] => Row1 r
  | _ => Mat2 c sel
  end.

(** [updated_data[[a, b]] = xy] with [xy] of shape [(2,)].  On a 1-d array
    the two entries are overwritten.  On a 2-d array the list indexes rows:
    the value broadcasts only to rows of width 2. *)
Definition assign_pair (u : squeezed) (a b : nat) (xy : num * num) : result squeezed :=
  match u with
  | Row1 r =>
      if decide (a < length r ∧ b < length r)
      then Ok (Row1 (<[b := xy.2]> (<[a := xy.1]> r)))
      else Raise IndexError
  | Mat2 c rs =>
      if decide (c = 2)
      then if decide (a < length rs ∧ b < length rs)
           then Ok (Mat2 c (<[b := [xy.1; xy.2]]> (<[a := [xy.1; xy.2]]> rs)))
           else Raise IndexError
      else Raise ValueError
  end.

Definition width (u : squeezed) : nat :=
  match u with
  | Row1 r => length r
  | Mat2 c _ => c
  end.

Definition rows_of (u : squeezed) : list (list num) :=
  match u with
  | Row1 r => [r]
  | Mat2 _ rs => rs
  end.

(** [np.vstack] of a non-empty list: all pieces must have the same width. *)
Definition np_vstack (l : list squeezed) : result ndarray :=
  match l with
  | [] => Raise ValueError
  | u :: _ =>
      if forallb (fun v => bool_decide (width v = width u)) l
      then Ok {| ncols := width u; rows := concat (rows_of <$> l) |}
      else Raise ValueError
  end.

(** [a[:, cols]] *)
Definition take_columns (cols : list nat) (a : ndarray) : result ndarray :=
  if forallb (fun c => bool_decide (c < ncols a)) cols
  then Ok {| ncols := length cols;
             rows := (fun r => omap (fun c => r !! c) cols) <$> rows a |}
  else Raise IndexError.

(** [a[:, 0] *= s] *)
Definition scaled0 (s : num) (r : list num) : list num :=
  match r with
  | [] => []
  | x :: r' => num_mul x s :: r'
  end.

Definition scale_column0 (s : num) (a : ndarray) : result ndarray :=
  if decide (0 < ncols a)
  then Ok {| ncols := ncols a; rows := scaled0 s <$> rows a |}
  else Raise IndexError.

(** [np.flip(a, axis=0)] *)
Definition flip_rows (a : ndarray) : ndarray :=
  {| ncols := ncols a; rows := reverse (rows a) |}.

(** ** [format_agentformer_trajectories] *)

Definition position_datasets : list string :=
  ["eth"; "hotel"; "univ"; "zara1"; "zara2"; "gen"; "real_gen"; "adversarial"].

Definition eth_ucy_datasets : list string :=
  ["eth"; "hotel"; "univ"; "zara1"; "zara2"].

(** The test [data['pred_mask'] is not None and data['pred_mask'][i] != 1.0] *)
Definition masked_out (pm : option (list num)) (i : nat) : result bool :=
  match pm with
  | None => Ok false
  | Some m => v ← py_index m i; Ok (negb (num_eqb v (num_lit 1)))
  end.

Definition source_data (data : batch) (future : bool) : list ndarray :=
  if future then fut_data data else pre_data data.

(** The body of the inner loop, for agent [i] with id [track_id] at step [j]. *)
Definition format_step (traj : trajectory) (data : batch) (dataset : string)
    (future : bool) (i : nat) (track_id : num) (j : nat) : result squeezed :=
  curr_data ← py_index (source_data data future) j;
  sel ← select_track curr_data track_id;
  let updated_data := squeeze (ncols curr_data) sel in
  if bool_decide (dataset ∈ position_datasets)
  then xy ← traj_at traj i j; assign_pair updated_data 13 15 xy
  else if str_contains "sdd" dataset
  then xy ← traj_at traj i j; assign_pair updated_data 2 3 xy
  else Raise NotImplementedError.

(** The two nested loops: the list [formatted_trajectories] they build. *)
Definition format_agent (traj : trajectory) (data : batch) (dataset : string)
    (timesteps : nat) (future : bool) (it : nat * num) : result (list squeezed) :=
  skip ← masked_out (pred_mask data) it.1;
  if (skip : bool) then Ok []
  else mapR (format_step traj data dataset future it.1 it.2) (seq 0 timesteps).

Definition format_loop (traj : trajectory) (data : batch) (dataset : string)
    (timesteps : nat) (future : bool) : result (list squeezed) :=
  (fun per_agent => concat per_agent) <$>
    mapR (format_agent traj data dataset timesteps future)
         (enumerate (valid_id data)).

Definition format_agentformer_trajectories (traj : trajectory) (data : batch)
    (dataset : string) (timesteps : nat) (frame_scale : num) (future : bool)
    : result formatted :=
  let traj := if future then traj else flip01 traj in
  formatted_trajectories ← format_loop traj data dataset timesteps future;
  match formatted_trajectories with
  | [] => Ok EmptyArray
  | _ =>
      stacked ← np_vstack formatted_trajectories;
      table ←
        (if bool_decide (dataset ∈ eth_ucy_datasets)
         then cols ← take_columns [0; 1; 13; 15] stacked; scale_column0 frame_scale cols
         else if bool_decide (dataset = "trajnet_sdd")
         then scale_column0 frame_scale stacked
         else Ok stacked);
      Ok (Table (if future then table else flip_rows table))
  end.

End Format.

(** ** Tensors and the external libraries

    Step outputs hold tensors of the tensor library.  The trainer only
    scales and transposes them, reads their first dimension, iterates over
    their first axis and hands them to [format_agentformer_trajectories],
    which reads a [(agents, timesteps, 2)] tensor entry by entry. *)

Class Tensor (num tensor : Type) := {
  t_shape0 : tensor → nat;                       (* [t.shape[0]] *)
  t_scale : num → tensor → tensor;               (* [s * t] *)
  t_transpose : tensor → tensor;                 (* [t.transpose(0, 1)] *)
  t_unstack : tensor → list tensor;              (* [for x in t] *)
  t_trajectory : tensor → list (list (num * num)); (* the entries [t[i, j]] *)
}.

(** What the network returns for one batch: [compute_loss()] and the
    entries of the model's data dictionary that [_step] reads. *)
Record model_output {num tensor : Type} := {
  total_loss : num;
  loss_dict : list (string * num);
  fut_motion : tensor;
  infer_dec_motion : tensor;
  pre_motion : tensor;
}.
Arguments model_output : clear implicits.

(** The dictionary returned by [_step]. *)
Record step_output {num tensor : Type} := {
  out_loss : num;
  out_losses : list (string * num);
  out_frame : num;
  out_seq : string;
  gt_motion : tensor;
  pred_motion : tensor;
  obs_motion : tensor;
  out_data : model_output num tensor;
}.
Arguments step_output : clear implicits.

(** Code of other modules and libraries that the trainer calls.  [pyobj]
    stands for the Python objects the trainer only passes along (sample
    values, argmins, collision matrices, plot arguments). *)
Class External (num tensor pyobj : Type) `{!Numeric num} := {
  (* [model.set_data(batch); model(); model.compute_loss()]; what the
     network object keeps of the batch between calls is not modelled *)
  run_model : @batch num → result (model_output num tensor);
  (* [eval.eval_one_seq(pred, gt, collision_rad=, return_sample_vals=)] *)
  eval_one_seq : tensor → tensor → num → bool →
                 result (list num * pyobj * pyobj * pyobj);
  (* [metrics.stats_func.keys()] *)
  stats_keys : list string;
  (* which of the exceptions raised in pool workers reaches the parent first *)
  first_arrival : list exn → exn;
  (* which calls of a pool that raises have completed: a task that follows a
     failing task in the same chunk is not run *)
  completed_in_pool : list pyobj → list pyobj;
  (* [_save_viz], lines 202-207: the arrays of one sequence, their shape and
     the formatted file name *)
  viz_arrays : step_output num tensor → result pyobj;
  (* [_save_viz], lines 209-238: the plot arguments of one sequence, built
     with [np.argmin] and [get_metrics_str] *)
  viz_plot_args : string → string → Z → string → nat →
                  step_output num tensor → pyobj → pyobj →
                  list pyobj → list pyobj → result pyobj;
  (* [visualization_utils.plot_anim_grid], applied to one argument list *)
  plot_anim_grid : pyobj → result unit;
  (* [torch.optim.Adam(params, lr=)] and [utils.torch.get_scheduler] *)
  torch_optim_Adam : num → result pyobj;
  get_scheduler : pyobj → string → list num → result pyobj;
}.

(** ** The trainer *)

(** [args], the command-line namespace. *)
Record arguments := {
  devices : option Z;
  args_num_workers : Z;
  mp : bool;
  save_viz : bool;
  save_traj : bool;
  tqdm_rate : Z;
  batch_size : Z;
}.

(** [int(multiprocessing.cpu_count() / (devices + 1e-5))], with the quotient
    taken in exact rational arithmetic; [int] rounds towards zero.  The
    program divides doubles: the two agree for [devices >= 1] with at most
    100000 CPUs, and in sign for [devices <= -1]; they differ at
    [devices = 0] (800000 for 8 CPUs here, 799999 in doubles), and the
    theorems stay within the former ranges. *)
Definition Qtrunc (q : Q) : Z :=
  if Qle_bool 0 q then Qfloor q else Qceiling q.

Definition cpu_share (cpu_count devices : Z) : Z :=
  Qtrunc (inject_Z cpu_count / (inject_Z devices + (1 # 100000)))%Q.

(** [__init__], lines 85-86: [self.num_workers]. *)
Definition init_num_workers (cpu_count : Z) (args : arguments) : Z :=
  match devices args with
  | Some d => Z.min (args_num_workers args) (cpu_share cpu_count d)
  | None => args_num_workers args          (* [min(n, float('inf'))] *)
  end.

Section Trainer.
Context {num tensor pyobj : Type} `{!Numeric num, !Tensor num tensor,
  !External num tensor pyobj}.

Local Abbreviation batch := (@batch num).
Local Abbreviation step_output := (step_output num tensor).
Local Abbreviation formatted := (@formatted num).

(** [cfg], restricted to the entries the trainer reads; entries read with
    [cfg.get] are optional. *)
Record config := {
  dataset : string;
  traj_scale : num;
  cfg_collision_rad : option num;
  lr : num;
  lr_scheduler : option string;
  lr_fix_epochs : num;
  num_epochs : num;
  decay_step : num;
  decay_gamma : num;
}.

(** The attributes of the trainer object that stay fixed between steps. *)
Record trainer := {
  cfg : config;
  args : arguments;
  num_workers : Z;
  collision_rad : num;
  model_name : string;
  dataset_name : string;
  current_epoch : Z;
}.

(** The same trainer with [args.mp] set to [b]. *)
Definition with_mp (b : bool) (self : trainer) : trainer :=
  {| cfg := cfg self;
     args := {| devices := devices (args self);
                args_num_workers := args_num_workers (args self);
                mp := b;
                save_viz := save_viz (args self);
                save_traj := save_traj (args self);
                tqdm_rate := tqdm_rate (args self);
                batch_size := batch_size (args self) |};
     num_workers := num_workers self;
     collision_rad := collision_rad self;
     model_name := model_name self;
     dataset_name := dataset_name self;
     current_epoch := current_epoch self |}.

(** [__init__], line 88 *)
Definition init_collision_rad (c : config) : num :=
  default (num_lit (1 # 10)) (cfg_collision_rad c).

(** Where [save_trajectories] writes: the parts of the file name. *)
Inductive suffix :=
  | SampleFile (idx : nat)
  | GtFile
  | ObsFile.

Record traj_file := {
  save_dir : string;
  file_seq : string;
  file_frame : num;
  file_suffix : suffix;
}.

(** The file name of one animation, by its parts. *)
Record anim_file := {
  anim_seq : string;
  anim_frame : num;
  anim_model : string;
  anim_epoch : Z;
  anim_tag : string;
}.

Inductive print_item :=
  | PrintBatch (epoch : Z) (batch_idx : Z)
  | PrintEpoch (epoch : Z)
  | PrintValue (v : num)
  | PrintTotal (n : nat).

(** The state that steps and epoch ends change: the one mutable attribute of
    the trainer, and what was logged, printed and written. *)
Record state := {
  validation_step_outputs : list step_output;
  logged : list (string * num);
  printed : list print_item;
  saved : list (traj_file * formatted);
  made_dirs : list anim_file;
  plotted : list pyobj;
}.

Local Abbreviation T := (ST state).

Definition add_logged (items : list (string * num)) (s : state) : state :=
  {| validation_step_outputs := validation_step_outputs s;
     logged := logged s ++ items;
     printed := printed s;
     saved := saved s;
     made_dirs := made_dirs s;
     plotted := plotted s |}.

Definition add_printed (items : list print_item) (s : state) : state :=
  {| validation_step_outputs := validation_step_outputs s;
     logged := logged s;
     printed := printed s ++ items;
     saved := saved s;
     made_dirs := made_dirs s;
     plotted := plotted s |}.

(** [self.log(name, value, ...)] *)
Definition log (name : string) (value : num) : T unit := fun s =>
  (add_logged [(name, value)] s, Ok tt).

Definition print (item : print_item) : T unit := fun s =>
  (add_printed [item] s, Ok tt).

(** [save_trajectories(trajectory, save_dir, seq_name, frame, suffix)] *)
Definition save_trajectories (t : formatted) (f : traj_file) : T unit := fun s =>
  ({| validation_step_outputs := validation_step_outputs s;
      logged := logged s;
      printed := printed s;
      saved := saved s ++ [(f, t)];
      made_dirs := made_dirs s;
      plotted := plotted s |}, Ok tt).

Definition add_saved (items : list (traj_file * formatted)) (s : state) : state :=
  {| validation_step_outputs := validation_step_outputs s;
     logged := logged s;
     printed := printed s;
     saved := saved s ++ items;
     made_dirs := made_dirs s;
     plotted := plotted s |}.

Definition mkdir_if_missing (f : anim_file) : T unit := fun s =>
  ({| validation_step_outputs := validation_step_outputs s;
      logged := logged s;
      printed := printed s;
      saved := saved s;
      made_dirs := made_dirs s ++ [f];
      plotted := plotted s |}, Ok tt).

Definition record_plots (ps : list pyobj) : T unit := fun s =>
  ({| validation_step_outputs := validation_step_outputs s;
      logged := logged s;
      printed := printed s;
      saved := saved s;
      made_dirs := made_dirs s;
      plotted := plotted s ++ ps |}, Ok tt).

Definition set_validation_step_outputs (l : list step_output) : T unit := fun s =>
  ({| validation_step_outputs := l;
      logged := logged s;
      printed := printed s;
      saved := saved s;
      made_dirs := made_dirs s;
      plotted := plotted s |}, Ok tt).

Definition get_validation_step_outputs : T (list step_output) := fun s =>
  (s, Ok (validation_step_outputs s)).

(** *** Steps *)

Definition _step (self : trainer) (b : batch) (mode : string) : T step_output :=
  data ← lift (run_model b);
  log (mode ++ "/loss") (total_loss data);;
  forT (loss_dict data) (fun l => log (mode ++ "/" ++ l.1) l.2);;
  let gt_motion := t_scale (traj_scale (cfg self)) (t_transpose (fut_motion data)) in
  let pred_motion := t_scale (traj_scale (cfg self)) (infer_dec_motion data) in
  let obs_motion := t_scale (traj_scale (cfg self)) (pre_motion data) in
  mret {| out_loss := total_loss data;
          out_losses := loss_dict data;
          out_frame := frame b;
          out_seq := seq_name b;
          gt_motion := gt_motion;
          pred_motion := pred_motion;
          obs_motion := obs_motion;
          out_data := data |}.

Definition training_step (self : trainer) (b : batch) (batch_idx : Z) : T step_output :=
  (if bool_decide (tqdm_rate (args self) = 0%Z ∧ (batch_idx mod 5 = 0)%Z)
   then print (PrintBatch (current_epoch self) batch_idx)
   else mret tt);;
  _step self b "train".

Definition validation_step (self : trainer) (b : batch) (batch_idx : Z) : T step_output :=
  loss ← _step self b "val";
  outs ← get_validation_step_outputs;
  set_validation_step_outputs (outs ++ [loss]);;
  mret loss.

Definition trajectory_dir (self : trainer) : string :=
  if bool_decide (dataset_name self = "trajnet_sdd")
  then "../trajectory_reward/results/trajectories/" ++ model_name self ++ "/trajnet_sdd"
  else "../trajectory_reward/results/trajectories/" ++ model_name self.

Definition format_and_save (self : trainer) (t : tensor) (b : batch)
    (timesteps : nat) (future : bool) (fr : num) (sfx : suffix) : T unit :=
  formatted ← lift (format_agentformer_trajectories (t_trajectory t) b
                      (dataset (cfg self)) timesteps (frame_scale_of b) future);
  save_trajectories formatted
    {| save_dir := trajectory_dir self; file_seq := seq_name b;
       file_frame := fr; file_suffix := sfx |}.

(** The file [test_step] writes for the suffix [sfx]. *)
Definition traj_file_of (self : trainer) (b : batch) (sfx : suffix) : traj_file :=
  {| save_dir := trajectory_dir self; file_seq := seq_name b;
     file_frame := num_mul (frame b) (frame_scale_of b); file_suffix := sfx |}.

Definition test_step (self : trainer) (b : batch) (batch_idx : Z) : T step_output :=
  return_dict ← _step self b "test";
  (if save_traj (args self)
   then
     let fr := num_mul (frame b) (frame_scale_of b) in
     forT (enumerate (t_unstack (t_transpose (pred_motion return_dict))))
       (fun s => format_and_save self s.2 b 12 true fr (SampleFile s.1));;
     format_and_save self (gt_motion return_dict) b 12 true fr GtFile;;
     format_and_save self (t_transpose (obs_motion return_dict)) b 8 false fr ObsFile
   else mret tt);;
  mret return_dict.


(** *** Epoch end *)

(** [multiprocessing.Pool(processes)] refuses fewer than one process.
    [pool.starmap] runs [f] on every element; when some calls raise, the
    exception that reached the parent first is raised again. *)
Definition failures {A} (rs : list (result A)) : list exn :=
  omap (fun r => match r with Raise e => Some e | Ok _ => None end) rs.

Definition pool_starmap {A B} (processes : Z) (f : A → result B) (l : list A)
    : result (list B) :=
  if decide (processes < 1)%Z then Raise ValueError
  else match failures (f <$> l) with
       | [] => mapR f l
       | e :: es => Raise (first_arrival (e :: es))
       end.

(** [itertools.starmap], consumed in order by [zip]. *)
Definition starmap {A B} (f : A → result B) (l : list A) : result (list B) :=
  mapR f l.

(** [zip( *ls )]: the columns of [ls], as far as every list reaches. *)
Fixpoint zip_star_aux {A} (fuel : list A) (ls : list (list A)) : list (list A) :=
  match fuel with
  | [] => []
  | _ :: fuel' =>
      match mapM head ls with
      | Some hs => hs :: zip_star_aux fuel' (tail <$> ls)
      | None => []
      end
  end.

Definition zip_star {A} (ls : list (list A)) : list (list A) :=
  match ls with
  | [] => []
  | l :: _ => zip_star_aux l ls
  end.

(** [a, b, c, d = zip( *all_metrics )] on a list of 4-tuples *)
Definition unzip4 {A B C D} (l : list (A * B * C * D))
    : result (list A * list B * list C * list D) :=
  match l with
  | [] => Raise ValueError
  | _ => Ok ((fun x => x.1.1.1) <$> l, (fun x => x.1.1.2) <$> l,
             (fun x => x.1.2) <$> l, (fun x => x.2) <$> l)
  end.

(** [d[key] = value] on a dictionary kept in insertion order *)
Fixpoint dict_set (key : string) (value : num) (d : list (string * num))
    : list (string * num) :=
  match d with
  | [] => [(key, value)]
  | kv :: d' =>
      if decide (kv.1 = key) then (key, value) :: d'
      else kv :: dict_set key value d'
  end.

Fixpoint dict_lookup (key : string) (d : list (string * num)) : option num :=
  match d with
  | [] => None
  | kv :: d' => if decide (kv.1 = key) then Some kv.2 else dict_lookup key d'
  end.

Definition is_sequence_metric (key : string) : bool :=
  str_contains "_joint" key || str_contains "CR" key.

(** The body of the aggregation loop for one key and its per-sequence values *)
Definition aggregate (key : string) (values : list num)
    (num_agent_per_seq : list nat) : num :=
  if is_sequence_metric key
  then np_mean values
  else num_div
         (np_sum (zip_with num_mul values (num_of_nat <$> num_agent_per_seq)))
         (num_of_nat (sum_list num_agent_per_seq)).

Definition aggregate_metrics (all_metrics : list (list num))
    (num_agent_per_seq : list nat) : list (string * num) :=
  foldl (fun results_dict kv =>
           dict_set kv.1 (aggregate kv.1 kv.2 num_agent_per_seq) results_dict)
        [] (zip stats_keys (zip_star all_metrics)).

Definition eval_args (outputs : list step_output) : list (tensor * tensor) :=
  (fun output => (pred_motion output, gt_motion output)) <$> outputs.

Definition eval_partial (self : trainer) (a : tensor * tensor)
    : result (list num * pyobj * pyobj * pyobj) :=
  eval_one_seq a.1 a.2 (collision_rad self) (save_viz (args self)).

(** The metrics of each sequence, in a pool when [args.mp] is set. *)
Definition eval_sequences (self : trainer) (args_list : list (tensor * tensor))
    : result (list (list num * pyobj * pyobj * pyobj)) :=
  if mp (args self)
  then pool_starmap (num_workers self) (eval_partial self) args_list
  else starmap (eval_partial self) args_list.

Definition _epoch_end (self : trainer) (outputs : list step_output)
    (mode : string) : T unit :=
  let args_list := eval_args outputs in
  all_metrics ← lift (eval_sequences self args_list);
  unzipped ← lift (unzip4 all_metrics);
  let all_metrics := unzipped.1.1.1 in
  let num_agent_per_seq := (fun output => t_shape0 (gt_motion output)) <$> outputs in
  let total_num_agents := sum_list num_agent_per_seq in
  let results_dict := aggregate_metrics all_metrics num_agent_per_seq in
  let is_test_mode := bool_decide (mode = "test") in
  (if is_test_mode
   then print (PrintEpoch (current_epoch self));;
        forT results_dict (fun kv => print (PrintValue kv.2));;
        print (PrintTotal total_num_agents)
   else mret tt);;
  forT results_dict (fun kv => log (mode ++ "/" ++ kv.1) kv.2).

(** What a completed [_epoch_end] leaves behind: the console lines of test
    mode and one log entry per aggregated metric. *)
Definition epoch_report (self : trainer) (mode : string)
    (results_dict : list (string * num)) (total_num_agents : nat) (s : state)
    : state :=
  add_logged ((fun kv => (mode ++ "/" ++ kv.1, kv.2)) <$> results_dict)
    (if bool_decide (mode = "test")
     then add_printed (PrintEpoch (current_epoch self)
                       :: ((fun kv => PrintValue kv.2) <$> results_dict)
                       ++ [PrintTotal total_num_agents]) s
     else s).

Definition on_validation_epoch_end (self : trainer) : T unit :=
  outputs ← get_validation_step_outputs;
  _epoch_end self outputs "val";;
  set_validation_step_outputs [].

Definition test_epoch_end (self : trainer) (outputs : list step_output) : T unit :=
  _epoch_end self outputs "test".

(** *** Visualization *)

(** One round of the loop of [_save_viz]. *)
Definition viz_one (self : trainer) (argmins collision_mats : list pyobj)
    (tag : string) (it : nat * (step_output * pyobj)) : T pyobj :=
  let frame_i := it.1 in
  let output := it.2.1 in
  let seq_to_sample_metrics := it.2.2 in
  (if bool_decide (t_shape0 (obs_motion output) = 8)
   then mret tt
   else lift (Raise AssertionError));;
  arrays ← lift (viz_arrays output);
  mkdir_if_missing {| anim_seq := out_seq output; anim_frame := out_frame output;
                      anim_model := model_name self;
                      anim_epoch := current_epoch self; anim_tag := tag |};;
  lift (viz_plot_args (model_name self) (dataset_name self) (current_epoch self)
          tag frame_i output arrays seq_to_sample_metrics argmins collision_mats).

(** The file name made in the round [it], and what it means that the round
    completes with the plot arguments [p]. *)
Definition anim_file_of (self : trainer) (tag : string)
    (it : nat * (step_output * pyobj)) : anim_file :=
  {| anim_seq := out_seq it.2.1; anim_frame := out_frame it.2.1;
     anim_model := model_name self;
     anim_epoch := current_epoch self; anim_tag := tag |}.

Definition round_completes (self : trainer) (argmins collision_mats : list pyobj)
    (tag : string) (it : nat * (step_output * pyobj)) (p : pyobj) : Prop :=
  t_shape0 (obs_motion it.2.1) = 8
  ∧ ∃ arrays, viz_arrays it.2.1 = Ok arrays
              ∧ viz_plot_args (model_name self) (dataset_name self)
                  (current_epoch self) tag it.1 it.2.1 arrays it.2.2
                  argmins collision_mats = Ok p.

(** [pool.starmap(plot_anim_grid, ...)]: when no call raises, every
    animation is made.  When some call raises, the pool has made the
    animations of [completed_in_pool], and the exception that reached the
    parent first is raised again. *)
Definition plot_in_pool (processes : Z) (ps : list pyobj) : T unit :=
  if decide (processes < 1)%Z then lift (Raise ValueError)
  else match failures (plot_anim_grid <$> ps) with
       | [] => record_plots ps
       | e :: es => record_plots (completed_in_pool ps);;
                    lift (Raise (first_arrival (e :: es)))
       end.

(** [list(starmap(plot_anim_grid, ...))]: animations are made in order. *)
Definition plot_in_order (ps : list pyobj) : T unit :=
  forT ps (fun p => lift (plot_anim_grid p);; record_plots [p]).

Definition _save_viz (self : trainer) (outputs : list step_output)
    (all_sample_vals : list pyobj) (all_meters_values : list (list num))
    (argmins collision_mats : list pyobj) (tag : string) : T unit :=
  seq_to_plot_args ←
    mapT (enumerate (zip outputs all_sample_vals))
         (viz_one self argmins collision_mats tag);
  if mp (args self)
  then plot_in_pool (num_workers self) seq_to_plot_args
  else plot_in_order seq_to_plot_args.

(** *** Optimizer *)

Definition configure_optimizers (self : trainer) : result (list pyobj * list pyobj) :=
  optimizer ← torch_optim_Adam (lr (cfg self));
  let scheduler_type := default "linear" (lr_scheduler (cfg self)) in
  scheduler ←
    (if bool_decide (scheduler_type = "linear")
     then get_scheduler optimizer "lambda"
            [lr_fix_epochs (cfg self); num_epochs (cfg self)]
     else if bool_decide (scheduler_type = "step")
     then get_scheduler optimizer "step"
            [decay_step (cfg self); decay_gamma (cfg self)]
     else Raise ValueError);
  Ok ([optimizer], [scheduler]).

End Trainer.

(** ** Checkpoints *)

#[warnings="-register-all"]
Inductive pyval :=
  | PNone
  | PInt (z : Z)
  | PObj (id : nat)                      (* a tensor or an optimizer state *)
  | PList (l : list pyval)
  | PDict (d : gmap string pyval).

Definition dict_get (key : string) : ST (gmap string pyval) pyval := fun d =>
  (d, match d !! key with
      | Some v => Ok v
      | None => Raise (KeyError key)
      end).

Definition dict_store (key : string) (v : pyval) : ST (gmap string pyval) unit :=
  fun d => (<[key := v]> d, Ok tt).

(** [v.items()] *)
Definition dict_items (v : pyval) : result (gmap string pyval) :=
  match v with
  | PDict d => Ok d
  | _ => Raise AttributeError
  end.

(** [on_load_checkpoint]: the state is the checkpoint dictionary, changed in
    place; the value returned is the epoch that is printed. *)
Definition on_load_checkpoint : ST (gmap string pyval) pyval :=
  checkpoint ← get_state;
  (if bool_decide (is_Some (checkpoint !! "model_dict")
                   ∧ is_Some (checkpoint !! "epoch"))
   then
     model_dict ← dict_get "model_dict";
     items ← lift (dict_items model_dict);
     dict_store "state_dict" (PDict (kmap (String.append "model.") items));;
     dict_store "global_step" PNone;;
     scheduler_dict ← dict_get "scheduler_dict";
     dict_store "lr_schedulers" (PList [scheduler_dict]);;
     opt_dict ← dict_get "opt_dict";
     dict_store "optimizer_states" (PList [opt_dict])
   else mret tt);;
  dict_get "epoch".

(** ** Statements about the formatted rows

    The row that the ETH/UCY branch keeps of a source row [r] once the
    position [xy] is written into it: [[frame_id * frame_scale, track_id, x, y]]. *)
Definition eth_row {num} `{!Numeric num} (frame_scale : num) (r : list num)
    (xy : num * num) : list num :=
  match r with
  | frame_id :: track_id :: _ => [num_mul frame_id frame_scale; track_id; xy.1; xy.2]
  | _ => []
  end.

(** A row with the position written into columns [a] and [b]. *)
Definition placed {num} (a b : nat) (r : list num) (xy : num * num) : list num :=
  <[b := xy.2]> (<[a := xy.1]> r).

(** The row of an SDD dataset: the source row with the position in columns 2
    and 3, and the frame id scaled for [trajnet_sdd] only. *)
Definition sdd_row {num} `{!Numeric num} (dataset : string) (frame_scale : num)
    (r : list num) (xy : num * num) : list num :=
  match placed 2 3 r xy with
  | frame_id :: r' =>
      (if bool_decide (dataset = "trajnet_sdd")
       then num_mul frame_id frame_scale else frame_id) :: r'
  | [] => []
  end.

Definition passes {num} `{!Numeric num} (pm : option (list num)) (i : nat) : bool :=
  match masked_out pm i with
  | Ok false => true
  | _ => false
  end.

(** The rows expected from the agents that pass the mask, in loop order. *)
Definition expected_rows {num} `{!Numeric num} (data : @batch num) (timesteps : nat)
    (mk : nat → nat → list num) : list (list num) :=
  concat ((fun it : nat * num =>
             if passes (pred_mask data) it.1
             then (fun j => mk it.1 j) <$> seq 0 timesteps
             else []) <$> enumerate (valid_id data)).

Definition table_of {num} (future : bool) (width : nat) (rs : list (list num))
    : @formatted num :=
  match rs with
  | [] => EmptyArray
  | _ => Table {| ncols := width; rows := if future then rs else reverse rs |}
  end.

(** ** An instance to run the trainer on examples: rational numbers and
    nested lists *)

Module Demo.

#[global] Instance Q_numeric : Numeric Q := {|
  num_eqb := Qeq_bool;
  num_lit := fun q => q;
  num_mul := Qmult;
  num_div := Qdiv;
  num_of_nat := fun n => inject_Z (Z.of_nat n);
  np_sum := foldr Qplus 0%Q;
  np_mean := fun l => Qdiv (foldr Qplus 0%Q l) (inject_Z (Z.of_nat (length l)));
|}.

#[warnings="-register-all"]
Inductive nd :=
  | Scalar (q : Q)
  | Arr (l : list nd).

Definition children (t : nd) : list nd :=
  match t with
  | Arr l => l
  | Scalar _ => []
  end.

Fixpoint nd_scale (s : Q) (t : nd) : nd :=
  match t with
  | Scalar q => Scalar (s * q)
  | Arr l => Arr (map (nd_scale s) l)
  end.

Definition nd_transpose (t : nd) : nd :=
  Arr (Arr <$> zip_star (children <$> children t)).

Definition nd_xy (t : nd) : option (Q * Q) :=
  match t with
  | Arr [Scalar x; Scalar y] => Some (x, y)
  | _ => None
  end.

#[global] Instance nd_tensor : Tensor Q nd := {|
  t_shape0 := fun t => length (children t);
  t_scale := nd_scale;
  t_transpose := nd_transpose;
  t_unstack := children;
  t_trajectory := fun t => (fun a => omap nd_xy (children a)) <$> children t;
|}.

Definition point (x y : Q) : nd := Arr [Scalar x; Scalar y].

(** A stand-in for the network: every agent of the batch stays at the
    origin, over [steps] observed and future frames and one sample. *)
Definition still (agents steps : nat) : nd :=
  Arr (replicate steps (Arr (replicate agents (point 0 0)))).

Definition demo_run_model (steps : nat) (b : @batch Q) : result (model_output Q nd) :=
  let agents := length (valid_id b) in
  Ok {| total_loss := 1%Q;
        loss_dict := [("mse", 1%Q)];
        fut_motion := still agents steps;
        infer_dec_motion := Arr (replicate agents (Arr [Arr (replicate steps (point 0 0))]));
        pre_motion := still agents steps |}.

(** A stand-in for [eval_one_seq]: it fails on a prediction without agents
    and otherwise returns one value per key of [demo_stats_keys]. *)
Definition demo_stats_keys : list string := ["ADE"; "FDE"; "ADE_joint"; "CR_pred"].

Definition demo_eval_one_seq (pred gt : nd) (collision_rad : Q)
    (return_sample_vals : bool) : result (list Q * string * string * string) :=
  match children pred with
  | [] => Raise (ExternalError "no agent")
  | _ => Ok ([inject_Z (Z.of_nat (length (children gt))); 2%Q; 3%Q; collision_rad],
             "sample_vals", "argmins", "collision_mats")
  end.

#[global] Instance demo_external (steps : nat) : External Q nd string := {|
  run_model := demo_run_model steps;
  eval_one_seq := demo_eval_one_seq;
  stats_keys := demo_stats_keys;
  first_arrival := fun es => default ValueError (head es);
  completed_in_pool := fun ps => [];
  viz_arrays := fun _ => Ok "arrays";
  viz_plot_args := fun model _ _ tag _ o _ _ _ _ => Ok (model ++ "_" ++ tag ++ "_" ++ out_seq o);
  plot_anim_grid := fun _ => Ok tt;
  torch_optim_Adam := fun _ => Ok "adam";
  get_scheduler := fun _ policy _ => Ok policy;
|}.

(** A source row of the ETH/UCY text format: 17 columns, the frame in column
    0, the track id in column 1, the position in columns 13 and 15. *)
Definition eth_source (fr tid x y : Q) : list Q :=
  [fr; tid; -1; -1; -1; -1; -1; -1; -1; -1; -1; -1; -1; x; -1; y; -1]%Q.

Definition eth_frame (fr : Q) : @ndarray Q :=
  {| ncols := 17; rows := [eth_source fr 1 0 0; eth_source fr 2 5 5] |}.

(** A batch with two agents, of which the mask keeps the first, and two
    future and two past frames. *)
Definition demo_batch : @batch Q := {|
  valid_id := [1; 2]%Q;
  pred_mask := Some [1; 0]%Q;
  fut_data := [eth_frame 11; eth_frame 12];
  pre_data := [eth_frame 10; eth_frame 9];
  frame := 10%Q;
  frame_scale_of := 10%Q;
  seq_name := "biwi_eth";
|}.

Definition demo_traj : list (list (Q * Q)) :=
  [[(1, 2); (3, 4)]; [(5, 6); (7, 8)]]%Q.

(** The same batch with every agent masked out. *)
Definition masked_batch : @batch Q := {|
  valid_id := [1; 2]%Q;
  pred_mask := Some [0; 0]%Q;
  fut_data := [eth_frame 11; eth_frame 12];
  pre_data := [eth_frame 10; eth_frame 9];
  frame := 10%Q;
  frame_scale_of := 10%Q;
  seq_name := "biwi_eth";
|}.

(** The rows and positions of the first agent of [demo_batch]. *)
Definition demo_row (i j : nat) : list Q :=
  eth_source (11 + inject_Z (Z.of_nat j)) 1 0 0.

Definition demo_pos (i j : nat) : Q * Q :=
  match j with
  | 0 => (1, 2)%Q
  | _ => (3, 4)%Q
  end.

(** A batch with one agent and no frame to read. *)
Definition bare_batch : @batch Q := {|
  valid_id := [1]%Q;
  pred_mask := None;
  fut_data := [];
  pre_data := [];
  frame := 10%Q;
  frame_scale_of := 10%Q;
  seq_name := "biwi_eth";
|}.

Definition demo_args (use_pool : bool) (workers : Z) : arguments := {|
  devices := Some 1%Z;
  args_num_workers := workers;
  mp := use_pool;
  save_viz := false;
  save_traj := false;
  tqdm_rate := 0;
  batch_size := 8;
|}.

Definition demo_cfg (scheduler : option string) : @config Q := {|
  dataset := "eth";
  traj_scale := 2%Q;
  cfg_collision_rad := None;
  lr := (1 # 10000)%Q;
  lr_scheduler := scheduler;
  lr_fix_epochs := 10%Q;
  num_epochs := 50%Q;
  decay_step := 10%Q;
  decay_gamma := (1 # 2)%Q;
|}.

Definition demo_trainer (use_pool : bool) (workers : Z) : @trainer Q := {|
  cfg := demo_cfg None;
  args := demo_args use_pool workers;
  num_workers := init_num_workers 8 (demo_args use_pool workers);
  collision_rad := init_collision_rad (demo_cfg None);
  model_name := "agentformer";
  dataset_name := "eth";
  current_epoch := 3;
|}.

(** A trainer whose configuration names a scheduler that does not exist. *)
Definition cosine_trainer : @trainer Q := {|
  cfg := demo_cfg (Some "cosine");
  args := demo_args false 2;
  num_workers := init_num_workers 8 (demo_args false 2);
  collision_rad := init_collision_rad (demo_cfg (Some "cosine"));
  model_name := "agentformer";
  dataset_name := "eth";
  current_epoch := 3;
|}.

Definition empty_state : @state Q nd string := {|
  validation_step_outputs := [];
  logged := [];
  printed := [];
  saved := [];
  made_dirs := [];
  plotted := [];
|}.

(** A step output whose observed trajectory has [steps] frames. *)
Definition demo_output (agents steps : nat) : step_output Q nd := {|
  out_loss := 1%Q;
  out_losses := [];
  out_frame := 10%Q;
  out_seq := "biwi_eth";
  gt_motion := nd_transpose (still agents steps);
  pred_motion := Arr (replicate agents (Arr [Arr (replicate steps (point 0 0))]));
  obs_motion := still agents steps;
  out_data := {| total_loss := 1%Q; loss_dict := [];
                 fut_motion := still agents steps;
                 infer_dec_motion := Arr [];
                 pre_motion := still agents steps |};
|}.

(** A legacy checkpoint without scheduler and optimizer state, and a
    complete one. *)
Definition bare_checkpoint : gmap string pyval :=
  {[ "model_dict" := PDict {[ "w" := PObj 0 ]}; "epoch" := PInt 5 ]}.

Definition legacy_checkpoint : gmap string pyval :=
  {[ "model_dict" := PDict {[ "w" := PObj 0 ]}; "epoch" := PInt 5;
     "scheduler_dict" := PObj 1; "opt_dict" := PObj 2 ]}.

(** A batch whose mask is shorter than its list of agents. *)
Definition short_mask_batch : @batch Q := {|
  valid_id := [1; 2]%Q;
  pred_mask := Some [0]%Q;
  fut_data := [eth_frame 11; eth_frame 12];
  pre_data := [eth_frame 10; eth_frame 9];
  frame := 10%Q;
  frame_scale_of := 10%Q;
  seq_name := "biwi_eth";
|}.

(** A batch whose second agent is in none of the frames. *)
Definition stray_batch : @batch Q := {|
  valid_id := [1; 3]%Q;
  pred_mask := None;
  fut_data := [eth_frame 11; eth_frame 12];
  pre_data := [eth_frame 10; eth_frame 9];
  frame := 10%Q;
  frame_scale_of := 10%Q;
  seq_name := "biwi_eth";
|}.

(** A batch with twelve future and eight past frames, the past frames
    from the most recent one backwards. *)
Definition long_batch : @batch Q := {|
  valid_id := [1; 2]%Q;
  pred_mask := None;
  fut_data := (fun k => eth_frame (inject_Z (Z.of_nat (11 + k)))) <$> seq 0 12;
  pre_data := (fun k => eth_frame (inject_Z (Z.of_nat (10 - k)))) <$> seq 0 8;
  frame := 10%Q;
  frame_scale_of := 10%Q;
  seq_name := "biwi_eth";
|}.

(** The same batch with only two past frames. *)
Definition short_past_batch : @batch Q := {|
  valid_id := [1; 2]%Q;
  pred_mask := None;
  fut_data := (fun k => eth_frame (inject_Z (Z.of_nat (11 + k)))) <$> seq 0 12;
  pre_data := [eth_frame 10; eth_frame 9];
  frame := 10%Q;
  frame_scale_of := 10%Q;
  seq_name := "biwi_eth";
|}.

(** A trainer that saves the trajectories of the test steps, for the
    dataset [ds]. *)
Definition saving_args : arguments := {|
  devices := Some 1%Z;
  args_num_workers := 2;
  mp := false;
  save_viz := false;
  save_traj := true;
  tqdm_rate := 0;
  batch_size := 8;
|}.

Definition saving_trainer (ds : string) : @trainer Q := {|
  cfg := {| dataset := ds;
            traj_scale := 2%Q;
            cfg_collision_rad := None;
            lr := (1 # 10000)%Q;
            lr_scheduler := None;
            lr_fix_epochs := 10%Q;
            num_epochs := 50%Q;
            decay_step := 10%Q;
            decay_gamma := (1 # 2)%Q |};
  args := saving_args;
  num_workers := init_num_workers 8 saving_args;
  collision_rad := (1 # 10)%Q;
  model_name := "agentformer";
  dataset_name := ds;
  current_epoch := 3;
|}.

(** A trainer made with [devices = -1] on a machine with eight CPUs. *)
Definition all_devices_args : arguments := {|
  devices := Some (-1)%Z;
  args_num_workers := 2;
  mp := true;
  save_viz := false;
  save_traj := false;
  tqdm_rate := 0;
  batch_size := 8;
|}.

Definition all_devices_trainer : @trainer Q := {|
  cfg := demo_cfg None;
  args := all_devices_args;
  num_workers := init_num_workers 8 all_devices_args;
  collision_rad := init_collision_rad (demo_cfg None);
  model_name := "agentformer";
  dataset_name := "eth";
  current_epoch := 3;
|}.

(** A checkpoint with a model and no epoch. *)
Definition model_only_checkpoint : gmap string pyval :=
  {[ "model_dict" := PDict {[ "w" := PObj 0 ]} ]}.

End Demo.

(** * Proofs *)

(** ** Facts about [format_agentformer_trajectories] *)

Section FormatFacts.
Context {num : Type} `{!Numeric num}.
Local Abbreviation ndarray := (@ndarray num).
Local Abbreviation batch := (@batch num).
Local Abbreviation trajectory := (@trajectory num).
Implicit Types (data : batch) (traj : trajectory).

Lemma mapR_ok {A B} (f : A → result B) (g : A → B) (l : list A) :
  (∀ x, x ∈ l → f x = Ok (g x)) → mapR f l = Ok (g <$> l).
Proof.
  induction l as [|x l IH]; intros Hf; [done|].
  cbn. rewrite Hf by left. cbn.
  rewrite IH; [done|]. intros y Hy. apply Hf. by right.
Qed.

Lemma elem_of_enumerate {A} (l : list A) i x :
  (i, x) ∈ enumerate l ↔ l !! i = Some x.
Proof.
  unfold enumerate. rewrite list_elem_of_lookup. split.
  - intros [k Hk]. apply lookup_zip_with_Some in Hk as (a & b & Heq & Ha & Hb).
    apply lookup_seq in Ha as [-> _]. by simplify_eq.
  - intros Hx. exists i. apply lookup_zip_with_Some. exists i, x.
    split; [done|]. split; [|done].
    apply lookup_seq. split; [done|]. by eapply lookup_lt_Some.
Qed.

Lemma masked_out_before (pm : option (list num)) i k :
  is_ok (masked_out pm i) = true → k ≤ i → is_ok (masked_out pm k) = true.
Proof.
  destruct pm as [m|]; [|done]. unfold masked_out, py_index. cbn.
  destruct (m !! i) eqn:Ei; [|done]. intros _ Hk.
  destruct (lookup_lt_is_Some_2 m k) as [v ->]; [|done].
  apply lookup_lt_Some in Ei. lia.
Qed.

Lemma format_loop_all_masked traj data dataset timesteps future :
  (∀ i, i < length (valid_id data) → masked_out (pred_mask data) i = Ok true) →
  format_loop traj data dataset timesteps future = Ok [].
Proof.
  intros Hmask. unfold format_loop.
  rewrite (mapR_ok _ (fun _ => [])).
  - cbn. f_equal. induction (enumerate (valid_id data)); [done|]. by cbn.
  - intros [i tid] Hin. apply elem_of_enumerate in Hin.
    unfold format_agent. cbn. rewrite Hmask; [done|]. by eapply lookup_lt_Some.
Qed.

(** Claim C9.  When [data['valid_id']] is empty, or [data['pred_mask']] is
    not [None] and gives every agent a value other than [1.0],
    [format_agentformer_trajectories] returns the empty array, whatever the
    dataset name is: the unsupported-dataset error is not raised. *)
Theorem format_empty_without_active_agent traj data dataset timesteps frame_scale future :
  valid_id data = []
  ∨ (∃ m, pred_mask data = Some m
          ∧ ∀ i, i < length (valid_id data) →
                 ∃ v, m !! i = Some v ∧ num_eqb v (num_lit 1) = false) →
  format_agentformer_trajectories traj data dataset timesteps frame_scale future
  = Ok EmptyArray.
Proof.
  intros Hcase. unfold format_agentformer_trajectories.
  rewrite format_loop_all_masked; [done|].
  intros i Hi. destruct Hcase as [Hnil | (m & Hm & Hall)].
  - rewrite Hnil in Hi. cbn in Hi. lia.
  - destruct (Hall i Hi) as (v & Hv & Hne).
    rewrite Hm. unfold masked_out, py_index. rewrite Hv. cbn. by rewrite Hne.
Qed.

Lemma format_step_unsupported traj data dataset future i track_id a :
  source_data data future !! 0 = Some a → 2 ≤ ncols a →
  dataset ∉ position_datasets → str_contains "sdd" dataset = false →
  format_step traj data dataset future i track_id 0 = Raise NotImplementedError.
Proof.
  intros Ha Hc Hds Hsdd. unfold format_step, py_index. rewrite Ha. cbn.
  unfold select_track. rewrite decide_True by done. cbn.
  rewrite bool_decide_eq_false_2 by done. by rewrite Hsdd.
Qed.

Lemma mapR_cons_ok {A B} (f : A → result B) x l y :
  f x = Ok y → mapR f (x :: l) = (fun ys => y :: ys) <$> mapR f l.
Proof. intros Hx. cbn. rewrite Hx. cbn. by destruct (mapR f l). Qed.

Lemma mapR_cons_raise {A B} (f : A → result B) x l e :
  f x = Raise e → mapR f (x :: l) = Raise e.
Proof. intros Hx. cbn. by rewrite Hx. Qed.

Lemma lookup_enumerate {A} (l : list A) k j x :
  enumerate l !! k = Some (j, x) ↔ j = k ∧ l !! k = Some x.
Proof.
  unfold enumerate. rewrite lookup_zip_with_Some. split.
  - intros (a & b & Heq & Ha & Hb). apply lookup_seq in Ha as [-> _]. by simplify_eq.
  - intros [-> Hx]. exists k, x. split; [done|]. split; [|done].
    apply lookup_seq. split; [done|]. by eapply lookup_lt_Some.
Qed.

Lemma format_agent_unsupported traj data dataset timesteps future it a :
  source_data data future !! 0 = Some a → 2 ≤ ncols a →
  dataset ∉ position_datasets → str_contains "sdd" dataset = false →
  1 ≤ timesteps →
  masked_out (pred_mask data) it.1 = Ok false →
  format_agent traj data dataset timesteps future it = Raise NotImplementedError.
Proof.
  intros Ha Hc Hds Hsdd Ht Hpass. unfold format_agent. rewrite Hpass. cbn.
  destruct timesteps as [|n]; [lia|].
  change (seq 0 (S n)) with (0 :: seq 1 n).
  apply mapR_cons_raise. by eapply format_step_unsupported.
Qed.

Lemma mapR_unsupported traj data dataset timesteps future (l1 l2 : list (nat * num)) it a :
  source_data data future !! 0 = Some a → 2 ≤ ncols a →
  dataset ∉ position_datasets → str_contains "sdd" dataset = false →
  1 ≤ timesteps →
  (∀ y, y ∈ l1 → is_ok (masked_out (pred_mask data) y.1) = true) →
  masked_out (pred_mask data) it.1 = Ok false →
  mapR (format_agent traj data dataset timesteps future) (l1 ++ it :: l2)
  = Raise NotImplementedError.
Proof.
  intros Ha Hc Hds Hsdd Ht Hok Hpass. induction l1 as [|y l1 IH]; cbn [app].
  - apply mapR_cons_raise. by eapply format_agent_unsupported.
  - destruct (masked_out (pred_mask data) y.1) as [[]|e] eqn:Em.
    + erewrite mapR_cons_ok; [|unfold format_agent; by rewrite Em].
      rewrite IH; [done|]. intros z Hz. apply Hok. by right.
    + apply mapR_cons_raise. by eapply format_agent_unsupported.
    + specialize (Hok y). rewrite Em in Hok. discriminate Hok. by left.
Qed.

Lemma format_unsupported_dataset traj data dataset timesteps frame_scale future i track_id a :
  dataset ∉ position_datasets → str_contains "sdd" dataset = false →
  valid_id data !! i = Some track_id →
  masked_out (pred_mask data) i = Ok false →
  1 ≤ timesteps →
  source_data data future !! 0 = Some a → 2 ≤ ncols a →
  format_agentformer_trajectories traj data dataset timesteps frame_scale future
  = Raise NotImplementedError.
Proof.
  intros Hds Hsdd Hid Hpass Ht Ha Hc. unfold format_agentformer_trajectories, format_loop.
  assert (enumerate (valid_id data) !! i = Some (i, track_id)) as Hi
    by by apply lookup_enumerate.
  rewrite <- (take_drop_middle _ _ _ Hi).
  erewrite mapR_unsupported; try done.
  intros [k tid] Hin. apply elem_of_take in Hin as (p & Hp & Hlt).
  apply lookup_enumerate in Hp as [-> _]. cbn.
  eapply masked_out_before; [|apply Nat.lt_le_incl, Hlt]. by rewrite Hpass.
Qed.

Lemma eth_ucy_position dataset :
  dataset ∈ eth_ucy_datasets → dataset ∈ position_datasets.
Proof.
  intros Hin. unfold eth_ucy_datasets in Hin. unfold position_datasets.
  repeat (apply elem_of_cons in Hin as [->|Hin]; [repeat constructor|]).
  by apply elem_of_nil in Hin.
Qed.

Lemma sdd_not_position dataset :
  str_contains "sdd" dataset = true → dataset ∉ position_datasets.
Proof.
  intros Hsdd Hin. unfold position_datasets in Hin.
  repeat (apply elem_of_cons in Hin as [->|Hin]; [vm_compute in Hsdd; discriminate Hsdd|]).
  by apply elem_of_nil in Hin.
Qed.

Lemma sdd_not_eth_ucy dataset :
  str_contains "sdd" dataset = true → dataset ∉ eth_ucy_datasets.
Proof. intros Hsdd Hin. by apply (sdd_not_position dataset Hsdd), eth_ucy_position. Qed.

Lemma format_step_found traj data dataset future i track_id j a r xy (ca cb : nat) :
  source_data data future !! j = Some a →
  select_track a track_id = Ok [r] →
  traj_at traj i j = Ok xy →
  ca < length r → cb < length r →
  (dataset ∈ position_datasets ∧ ca = 13 ∧ cb = 15)
  ∨ (str_contains "sdd" dataset = true ∧ ca = 2 ∧ cb = 3) →
  format_step traj data dataset future i track_id j = Ok (Row1 (placed ca cb r xy)).
Proof.
  intros Ha Hsel Hxy Hca Hcb Hds. unfold format_step, py_index.
  rewrite Ha. cbn. rewrite Hsel. cbn.
  destruct Hds as [(Hin & -> & ->) | (Hsdd & -> & ->)].
  - rewrite bool_decide_eq_true_2 by done. rewrite Hxy. cbn.
    by rewrite decide_True.
  - rewrite bool_decide_eq_false_2 by by apply sdd_not_position.
    rewrite Hsdd, Hxy. cbn. by rewrite decide_True.
Qed.

Lemma passes_true (pm : option (list num)) i :
  passes pm i = true ↔ masked_out pm i = Ok false.
Proof. unfold passes. by destruct (masked_out pm i) as [[]|]. Qed.

Lemma passes_false (pm : option (list num)) i :
  is_ok (masked_out pm i) = true → passes pm i = false → masked_out pm i = Ok true.
Proof. unfold passes. by destruct (masked_out pm i) as [[]|]. Qed.

Lemma concat_fmap_fmap {A B C} (f : B → C) (g : A → list B) (l : list A) :
  concat ((fun x => f <$> g x) <$> l) = f <$> concat (g <$> l).
Proof.
  induction l as [|x l IH]; [done|]. cbn. by rewrite IH, fmap_app.
Qed.

Section Found.
Context (traj : trajectory) (data : batch) (dataset : string) (timesteps : nat)
  (future : bool) (w ca cb : nat)
  (row : nat → nat → list num) (pos : nat → nat → num * num).
Hypothesis Hmask : ∀ i, i < length (valid_id data) →
  is_ok (masked_out (pred_mask data) i) = true.
Hypothesis Hrow : ∀ i tid j,
  valid_id data !! i = Some tid → passes (pred_mask data) i = true → j < timesteps →
  ∃ a, source_data data future !! j = Some a
       ∧ select_track a tid = Ok [row i j]
       ∧ length (row i j) = w
       ∧ traj_at traj i j = Ok (pos i j).
Hypothesis Hca : ca < w.
Hypothesis Hcb : cb < w.
Hypothesis Hds : (dataset ∈ position_datasets ∧ ca = 13 ∧ cb = 15)
  ∨ (str_contains "sdd" dataset = true ∧ ca = 2 ∧ cb = 3).

Lemma format_loop_found :
  format_loop traj data dataset timesteps future
  = Ok (Row1 <$> expected_rows data timesteps
                   (fun i j => placed ca cb (row i j) (pos i j))).
Proof.
  unfold format_loop, expected_rows.
  rewrite (mapR_ok _ (fun it : nat * num =>
     Row1 <$> (if passes (pred_mask data) it.1
               then (fun j => placed ca cb (row it.1 j) (pos it.1 j)) <$> seq 0 timesteps
               else []))).
  - cbn. f_equal. apply concat_fmap_fmap.
  - intros [i tid] Hin. apply elem_of_enumerate in Hin. cbn.
    unfold format_agent. cbn.
    destruct (passes (pred_mask data) i) eqn:Ep.
    + rewrite (proj1 (passes_true _ _) Ep). cbn.
      rewrite (mapR_ok _ (fun j => Row1 (placed ca cb (row i j) (pos i j)))).
      * by rewrite <- list_fmap_compose.
      * intros j Hj. apply elem_of_seq in Hj as [_ Hj]. cbn in Hj.
        destruct (Hrow i tid j Hin Ep Hj) as (a & Ha & Hsel & Hlen & Hxy).
        eapply format_step_found; try done; lia.
    + rewrite (passes_false _ _ (Hmask i (lookup_lt_Some _ _ _ Hin)) Ep). done.
Qed.

Lemma expected_rows_width (mk : nat → nat → list num) :
  (∀ i tid j, valid_id data !! i = Some tid → passes (pred_mask data) i = true →
              j < timesteps → length (mk i j) = w) →
  Forall (fun r => length r = w) (expected_rows data timesteps mk).
Proof.
  intros Hmk. unfold expected_rows. apply Forall_concat, Forall_fmap, Forall_forall.
  intros [i tid] Hin. apply elem_of_enumerate in Hin. cbn.
  destruct (passes (pred_mask data) i) eqn:Ep; [|done].
  apply Forall_fmap, Forall_forall. intros j Hj. apply elem_of_seq in Hj as [_ Hj].
  cbn. by eapply Hmk.
Qed.

Lemma expected_rows_fmap (t : list num → list num) (mk1 mk2 : nat → nat → list num) :
  (∀ i tid j, valid_id data !! i = Some tid → passes (pred_mask data) i = true →
              j < timesteps → mk2 i j = t (mk1 i j)) →
  t <$> expected_rows data timesteps mk1 = expected_rows data timesteps mk2.
Proof.
  intros Hmk. unfold expected_rows.
  rewrite <- concat_fmap_fmap. f_equal. apply list_fmap_ext.
  intros k [i tid] Hk. apply lookup_enumerate in Hk as [<- Hin]. cbn.
  destruct (passes (pred_mask data) i) eqn:Ep; [|done].
  rewrite <- list_fmap_compose. apply list_fmap_ext. intros p j Hp. cbn.
  apply lookup_seq in Hp as [Hp Hj]. cbn in Hp. subst j. symmetry. by eapply Hmk.
Qed.
End Found.

Lemma np_vstack_rows (rs : list (list num)) w :
  rs ≠ [] → Forall (fun r => length r = w) rs →
  np_vstack (Row1 <$> rs) = Ok {| ncols := w; rows := rs |}.
Proof.
  intros Hne Hw. destruct rs as [|r rs]; [done|].
  assert (concat (rows_of <$> (Row1 <$> r :: rs)) = r :: rs) as Hrows.
  { generalize (r :: rs). intros l. induction l as [|x l IH]; [done|].
    cbn. f_equal. apply IH. }
  unfold np_vstack. cbn [fmap list_fmap].
  assert (forallb (fun v => bool_decide (width v = width (Row1 r)))
            (Row1 r :: (Row1 <$> rs)) = true) as ->.
  { apply forallb_forall. intros v Hv. apply bool_decide_eq_true.
    apply list_elem_of_In in Hv.
    change (Row1 r :: (Row1 <$> rs)) with (Row1 <$> r :: rs) in Hv.
    apply list_elem_of_fmap in Hv as (x & -> & Hx). cbn.
    rewrite Forall_forall in Hw. rewrite (Hw x Hx). symmetry. apply Hw. by left. }
  cbn [width]. rewrite Forall_forall in Hw. rewrite (Hw r) by by left.
  f_equal. f_equal. apply Hrows.
Qed.

Lemma eth_row_columns frame_scale (r : list num) xy :
  16 ≤ length r →
  scaled0 frame_scale (omap (fun c => placed 13 15 r xy !! c) [0; 1; 13; 15])
  = eth_row frame_scale r xy.
Proof.
  intros Hlen. do 16 (destruct r as [|? r]; [cbn in Hlen; lia|]). reflexivity.
Qed.

Lemma sdd_row_columns dataset frame_scale (r : list num) xy :
  sdd_row dataset frame_scale r xy
  = (if bool_decide (dataset = "trajnet_sdd") then scaled0 frame_scale else id)
      (placed 2 3 r xy).
Proof.
  unfold sdd_row. destruct (placed 2 3 r xy); by case_bool_decide.
Qed.

Lemma length_placed a b (r : list num) xy : length (placed a b r xy) = length r.
Proof. unfold placed. by rewrite !length_insert. Qed.

Lemma take_columns_ok (cols : list nat) (a : ndarray) :
  Forall (fun c => c < ncols a) cols →
  take_columns cols a
  = Ok {| ncols := length cols;
          rows := (fun r => omap (fun c => r !! c) cols) <$> rows a |}.
Proof.
  intros Hc. unfold take_columns.
  assert (forallb (fun c => bool_decide (c < ncols a)) cols = true) as ->; [|done].
  apply forallb_forall. intros c Hin. apply bool_decide_eq_true.
  rewrite Forall_forall in Hc. by apply Hc, list_elem_of_In.
Qed.

Lemma scale_column0_ok (s : num) (a : ndarray) :
  0 < ncols a →
  scale_column0 s a = Ok {| ncols := ncols a; rows := scaled0 s <$> rows a |}.
Proof. intros Hc. unfold scale_column0. by rewrite decide_True. Qed.

Lemma finish_table (future : bool) (w : nat) (rs : list (list num))
    (post : ndarray → result ndarray) (w' : nat) (t : list num → list num) :
  Forall (fun r => length r = w) rs →
  post {| ncols := w; rows := rs |} = Ok {| ncols := w'; rows := t <$> rs |} →
  match Row1 <$> rs with
  | [] => Ok EmptyArray
  | _ => stacked ← np_vstack (Row1 <$> rs);
         table ← post stacked;
         Ok (Table (if future then table else flip_rows table))
  end = Ok (table_of future w' (t <$> rs)).
Proof.
  intros Hw Hpost. destruct (decide (rs = [])) as [->|Hne]; [done|].
  rewrite (np_vstack_rows _ w Hne Hw). cbn [mbind result_bind].
  rewrite Hpost. cbn [mbind result_bind].
  destruct rs as [|r rs']; [done|]. unfold table_of, flip_rows. cbn.
  by destruct future.
Qed.

(** Claim C4.  Let every agent that passes the mask have, at each of the
    [timesteps] steps, exactly one source row [row i j] with its track id,
    all of one width [w], and a position [pos i j] in the trajectory (read in
    flipped order when [future] is false).  For a dataset name among eth,
    hotel, univ, zara1 and zara2 the function returns, per agent and step in
    loop order, the four columns [[frame_id * frame_scale, track_id, x, y]]:
    the position was written into columns 13 and 15 of the source row.  For a
    dataset name containing ['sdd'] it returns the source rows with the
    position written into columns 2 and 3 (and the frame id scaled for
    [trajnet_sdd]).  With [future] false the rows come in reverse order. *)
Theorem format_rows_by_dataset (traj : trajectory) (data : batch) (dataset : string)
    (timesteps : nat) (frame_scale : num) (future : bool) (w : nat)
    (row : nat → nat → list num) (pos : nat → nat → num * num) :
  (∀ i, i < length (valid_id data) →
        is_ok (masked_out (pred_mask data) i) = true) →
  (∀ i tid j,
     valid_id data !! i = Some tid → passes (pred_mask data) i = true →
     j < timesteps →
     ∃ a, source_data data future !! j = Some a
          ∧ select_track a tid = Ok [row i j]
          ∧ length (row i j) = w
          ∧ traj_at (if future then traj else flip01 traj) i j = Ok (pos i j)) →
  (dataset ∈ eth_ucy_datasets → 16 ≤ w →
   format_agentformer_trajectories traj data dataset timesteps frame_scale future
   = Ok (table_of future 4
           (expected_rows data timesteps
              (fun i j => eth_row frame_scale (row i j) (pos i j)))))
  ∧ (str_contains "sdd" dataset = true → 4 ≤ w →
     format_agentformer_trajectories traj data dataset timesteps frame_scale future
     = Ok (table_of future w
             (expected_rows data timesteps
                (fun i j => sdd_row dataset frame_scale (row i j) (pos i j))))).
Proof.
  intros Hmask Hrow.
  assert (∀ ca cb, Forall (fun r => length r = w)
            (expected_rows data timesteps
               (fun i j => placed ca cb (row i j) (pos i j)))) as Hwidth.
  { intros ca cb. apply expected_rows_width. intros i tid j Hi Hp Hj.
    rewrite length_placed.
    by destruct (Hrow i tid j Hi Hp Hj) as (a & _ & _ & Hl & _). }
  split.
  - intros Hds Hw. unfold format_agentformer_trajectories.
    rewrite (format_loop_found _ data dataset timesteps future w 13 15 row pos);
      [|done|done|lia|lia|left; by auto using eth_ucy_position].
    cbn [mbind result_bind].
    rewrite bool_decide_eq_true_2 by done.
    rewrite <- (expected_rows_fmap data timesteps
                  (fun r => scaled0 frame_scale (omap (fun c => r !! c) [0; 1; 13; 15]))
                  (fun i j => placed 13 15 (row i j) (pos i j))
                  (fun i j => eth_row frame_scale (row i j) (pos i j))).
    2:{ intros i tid j Hi Hp Hj. symmetry. apply eth_row_columns.
        destruct (Hrow i tid j Hi Hp Hj) as (a & _ & _ & Hl & _). lia. }
    apply (finish_table future w); [apply Hwidth|].
    rewrite take_columns_ok by (cbn; repeat constructor; lia).
    cbn [mbind result_bind]. rewrite scale_column0_ok by (cbn; lia).
    cbn. f_equal. f_equal. by rewrite <- list_fmap_compose.
  - intros Hsdd Hw. unfold format_agentformer_trajectories.
    rewrite (format_loop_found _ data dataset timesteps future w 2 3 row pos);
      [|done|done|lia|lia|right; by auto].
    cbn [mbind result_bind].
    rewrite bool_decide_eq_false_2 by by apply sdd_not_eth_ucy.
    rewrite <- (expected_rows_fmap data timesteps
                  (if bool_decide (dataset = "trajnet_sdd")
                   then scaled0 frame_scale else id)
                  (fun i j => placed 2 3 (row i j) (pos i j))
                  (fun i j => sdd_row dataset frame_scale (row i j) (pos i j))).
    2:{ intros i tid j Hi Hp Hj. apply sdd_row_columns. }
    apply (finish_table future w); [apply Hwidth|].
    case_bool_decide.
    + by rewrite scale_column0_ok by (cbn; lia).
    + cbn. by rewrite list_fmap_id.
Qed.
End FormatFacts.

(** ** Facts about the epoch end *)

Lemma mapM_head_None {A} (ls : list (list A)) k :
  mapM head ls = None → mapM (fun l => l !! k) ls = None.
Proof.
  rewrite !mapM_None. intros Hex. apply Exists_exists in Hex as (l & Hin & Hl).
  apply Exists_exists. exists l. split; [done|].
  destruct l; [done|discriminate].
Qed.

Lemma mapM_lookup_0 {A} (ls : list (list A)) :
  mapM (fun l => l !! 0) ls = mapM head ls.
Proof. apply mapM_ext. by intros []. Qed.

Lemma mapM_lookup_S {A} (ls : list (list A)) k :
  mapM (fun l => l !! S k) ls = mapM (fun l => l !! k) (tail <$> ls).
Proof.
  induction ls as [|l ls IH]; [done|]. cbn. rewrite IH.
  by destruct l.
Qed.

Lemma zip_star_aux_lookup {A} (fuel : list A) (rest : list (list A)) k :
  zip_star_aux fuel (fuel :: rest) !! k = mapM (fun l => l !! k) (fuel :: rest).
Proof.
  revert rest k. induction fuel as [|x fuel IH]; intros rest k; [done|].
  cbn [zip_star_aux]. destruct (mapM head ((x :: fuel) :: rest)) as [hs|] eqn:Eh.
  - destruct k as [|k].
    + by rewrite mapM_lookup_0, Eh.
    + rewrite mapM_lookup_S. cbn [fmap list_fmap tail lookup list_lookup].
      apply IH.
  - rewrite lookup_nil. symmetry. by apply mapM_head_None.
Qed.

Lemma zip_star_lookup {A} (ls : list (list A)) k :
  ls ≠ [] → zip_star ls !! k = mapM (fun l => l !! k) ls.
Proof. destruct ls as [|l ls]; [done|]. intros _. apply zip_star_aux_lookup. Qed.

Lemma zip_star_length {A} (ls : list (list A)) n :
  ls ≠ [] → Forall (fun l => length l = n) ls → length (zip_star ls) = n.
Proof.
  intros Hne Hlen.
  destruct (decide (length (zip_star ls) < n)) as [Hlt|Hge].
  - exfalso. pose proof (zip_star_lookup ls (length (zip_star ls)) Hne) as Hk.
    rewrite lookup_ge_None_2 in Hk by done. symmetry in Hk.
    apply mapM_None in Hk. apply Exists_exists in Hk as (l & Hin & Hl).
    rewrite Forall_forall in Hlen. apply lookup_ge_None in Hl.
    rewrite (Hlen l Hin) in Hl. lia.
  - destruct (decide (n < length (zip_star ls))) as [Hgt|]; [|lia].
    exfalso. destruct (lookup_lt_is_Some_2 _ _ Hgt) as [col Hcol].
    rewrite zip_star_lookup in Hcol by done.
    apply mapM_Some in Hcol. destruct ls as [|l ls]; [done|].
    apply Forall2_cons_inv_l in Hcol as (v & col' & Hv & _ & _).
    apply lookup_lt_Some in Hv. apply Forall_cons in Hlen as [Hl _]. lia.
Qed.

(** ** Facts about computations with state and exceptions *)

Lemma bind_lift {S A B} (r : result A) (k : A → ST S B) s :
  (lift r ≫= k) s = match r with Ok a => k a s | Raise e => (s, Raise e) end.
Proof. by destruct r. Qed.

Lemma ST_bind_eq {S A B} (m : ST S A) (k : A → ST S B) s :
  (m ≫= k) s = match m s with
               | (s', Ok a) => k a s'
               | (s', Raise e) => (s', Raise e)
               end.
Proof. done. Qed.

Lemma ST_bind_assoc {S A B C} (m : ST S A) (k : A → ST S B)
    (k' : B → ST S C) s :
  ((m ≫= k) ≫= k') s = (m ≫= (fun a => k a ≫= k')) s.
Proof. rewrite !ST_bind_eq. by destruct (m s) as [s' [a|e]]. Qed.

Lemma bind_ret {S A B} (a : A) (k : A → ST S B) s : (mret a ≫= k) s = k a s.
Proof. done. Qed.

Lemma preserves_ret {S X A} (p : S → X) (a : A) : preserves p (mret a : ST S A).
Proof. by intros s. Qed.

Lemma preserves_lift {S X A} (p : S → X) (r : result A) :
  preserves p (lift r : ST S A).
Proof. by intros s. Qed.

Lemma preserves_bind {S X A B} (p : S → X) (m : ST S A) (k : A → ST S B) :
  preserves p m → (∀ a, preserves p (k a)) → preserves p (m ≫= k).
Proof.
  intros Hm Hk s. rewrite ST_bind_eq. specialize (Hm s).
  destruct (m s) as [s' [a|e]]; cbn in *; [|done]. by rewrite Hk.
Qed.

Lemma preserves_forT {S X A} (p : S → X) (l : list A) (body : A → ST S unit) :
  (∀ x, preserves p (body x)) → preserves p (forT l body).
Proof.
  intros Hbody. induction l as [|x l IH]; [apply preserves_ret|].
  cbn [forT]. apply preserves_bind; [apply Hbody|by intros _].
Qed.






Section TrainerFacts.
Context {num tensor pyobj : Type} `{!Numeric num, !Tensor num tensor,
  !External num tensor pyobj}.

Local Abbreviation step_output := (step_output num tensor).
Local Abbreviation state := (@state num tensor pyobj).
Local Abbreviation trainer := (@trainer num).
Local Abbreviation eval_result := (list num * pyobj * pyobj * pyobj)%type.
Implicit Types (self : trainer) (s : state) (outputs : list step_output).

(** *** The state monad *)

Lemma bind_print {B} item (k : unit → ST state B) s :
  (print item ≫= k) s = k tt (add_printed [item] s).
Proof. done. Qed.

Lemma add_logged_nil s : add_logged [] s = s.
Proof. destruct s. unfold add_logged. cbn. by rewrite app_nil_r. Qed.

Lemma add_logged_app l1 l2 s :
  add_logged l2 (add_logged l1 s) = add_logged (l1 ++ l2)%list s.
Proof. unfold add_logged. cbn. by rewrite app_assoc. Qed.

Lemma add_printed_nil s : add_printed [] s = s.
Proof. destruct s. unfold add_printed. cbn. by rewrite app_nil_r. Qed.

Lemma add_printed_app l1 l2 s :
  add_printed l2 (add_printed l1 s) = add_printed (l1 ++ l2)%list s.
Proof. unfold add_printed. cbn. by rewrite app_assoc. Qed.

Lemma forT_log {A} (l : list A) (f : A → string) (g : A → num) s :
  forT l (fun x => log (f x) (g x)) s
  = (add_logged ((fun x => (f x, g x)) <$> l) s, Ok tt).
Proof.
  revert s. induction l as [|x l IH]; intros s.
  - cbn. by rewrite add_logged_nil.
  - cbn [forT]. unfold mbind, ST_bind. cbn. rewrite IH. by rewrite add_logged_app.
Qed.

Lemma forT_print {A} (l : list A) (f : A → print_item) s :
  forT l (fun x => print (f x)) s = (add_printed (f <$> l) s, Ok tt).
Proof.
  revert s. induction l as [|x l IH]; intros s.
  - cbn. by rewrite add_printed_nil.
  - cbn [forT]. unfold mbind, ST_bind. cbn. rewrite IH. by rewrite add_printed_app.
Qed.

Lemma bind_forT_print {A B} (l : list A) (f : A → print_item)
    (k : unit → ST state B) s :
  (forT l (fun x => print (f x)) ≫= k) s = k tt (add_printed (f <$> l) s).
Proof. by rewrite ST_bind_eq, forT_print. Qed.

(** *** Evaluation of the sequences *)

Lemma mapR_Forall2 {A B} (f : A → result B) l ms :
  Forall2 (fun a m => f a = Ok m) l ms → mapR f l = Ok ms.
Proof.
  induction 1 as [|a m l ms Ha _ IH]; [done|]. cbn. rewrite Ha. cbn. by rewrite IH.
Qed.

Lemma failures_nil_Forall2 {A B} (f : A → result B) l ms :
  Forall2 (fun a m => f a = Ok m) l ms → failures (f <$> l) = [].
Proof.
  induction 1 as [|a m l ms Ha _ IH]; [done|]. cbn. rewrite Ha. apply IH.
Qed.

(** The sequential loop stops at the first failure, in list order. *)
Lemma mapR_failures {A B} (f : A → result B) l :
  match mapR f l with
  | Ok _ => failures (f <$> l) = []
  | Raise e => head (failures (f <$> l)) = Some e
  end.
Proof.
  induction l as [|a l IH]; [done|]. cbn. destruct (f a) as [m|e]; cbn; [|done].
  destruct (mapR f l); cbn; apply IH.
Qed.

Lemma elem_of_failures {A} (rs : list (result A)) e :
  e ∈ failures rs ↔ Raise e ∈ rs.
Proof.
  unfold failures. rewrite list_elem_of_omap. split.
  - intros (r & Hr & He). destruct r; by simplify_eq.
  - intros Hr. by exists (Raise e).
Qed.

Lemma eval_sequences_ok self args_list ms :
  (mp (args self) = true → (1 ≤ num_workers self)%Z) →
  Forall2 (fun a m => eval_partial self a = Ok m) args_list ms →
  eval_sequences self args_list = Ok ms.
Proof.
  intros Hpool Hall. unfold eval_sequences, starmap, pool_starmap.
  destruct (mp (args self)).
  - rewrite decide_False by (specialize (Hpool eq_refl); lia).
    rewrite (failures_nil_Forall2 _ _ _ Hall). by apply mapR_Forall2.
  - by apply mapR_Forall2.
Qed.

Lemma eval_args_Forall2 self outputs (ms : list eval_result) :
  Forall2 (fun o m => eval_partial self (pred_motion o, gt_motion o) = Ok m) outputs ms →
  Forall2 (fun a m => eval_partial self a = Ok m) (eval_args outputs) ms.
Proof. intros Hall. unfold eval_args. by apply Forall2_fmap_l. Qed.

(** *** The aggregation loop *)

Lemma dict_set_fresh key value (d : list (string * num)) :
  key ∉ (fst <$> d) → dict_set key value d = (d ++ [(key, value)])%list.
Proof.
  induction d as [|kv d IH]; intros Hfresh; [done|]. cbn.
  apply not_elem_of_cons in Hfresh as [Hne Hfresh].
  rewrite decide_False by done. by rewrite IH.
Qed.

Lemma foldl_dict_set {A} (g : string * A → num) (l : list (string * A)) d :
  NoDup ((fst <$> d) ++ (fst <$> l))%list →
  foldl (fun results_dict kv => dict_set kv.1 (g kv) results_dict) d l
  = (d ++ ((fun kv => (kv.1, g kv)) <$> l))%list.
Proof.
  revert d. induction l as [|kv l IH]; intros d Hnd; cbn.
  - by rewrite app_nil_r.
  - rewrite dict_set_fresh.
    + rewrite IH; [by rewrite <- app_assoc|].
      rewrite fmap_app. cbn. by rewrite <- app_assoc.
    + cbn in Hnd. apply NoDup_app in Hnd as (_ & Hdisj & _).
      intros Hin. apply (Hdisj _ Hin). by left.
Qed.

Lemma fst_zip_take {A B} (l : list A) (k : list B) :
  fst <$> zip l k = take (length k) l.
Proof.
  revert k. induction l as [|x l IH]; intros [|y k]; cbn; try done.
  by rewrite IH.
Qed.

Lemma aggregate_metrics_zip (all_metrics : list (list num)) (nums : list nat) :
  NoDup stats_keys →
  aggregate_metrics all_metrics nums
  = (fun kv => (kv.1, aggregate kv.1 kv.2 nums))
      <$> zip stats_keys (zip_star all_metrics).
Proof.
  intros Hnd. unfold aggregate_metrics.
  rewrite (foldl_dict_set (fun kv => aggregate kv.1 kv.2 nums)); [done|].
  cbn. rewrite fst_zip_take. eapply sublist_NoDup; [done|]. apply sublist_take.
Qed.

Lemma dict_lookup_zip {A} (g : string * A → num) (ks : list string) (cols : list A)
    k key col :
  NoDup ks → ks !! k = Some key → cols !! k = Some col →
  dict_lookup key ((fun kv => (kv.1, g kv)) <$> zip ks cols) = Some (g (key, col)).
Proof.
  revert cols k. induction ks as [|k0 ks IH]; intros cols k Hnd Hk Hc; [done|].
  destruct cols as [|c cols]; [done|]. apply NoDup_cons in Hnd as [Hfresh Hnd].
  destruct k as [|k]; cbn in *.
  - simplify_eq. by rewrite decide_True.
  - rewrite decide_False; [by eapply IH|].
    intros ->. apply Hfresh. by eapply list_elem_of_lookup_2.
Qed.

Lemma unzip4_ok {A B C D} (l : list (A * B * C * D)) :
  l ≠ [] →
  unzip4 l = Ok ((fun x => x.1.1.1) <$> l, (fun x => x.1.1.2) <$> l,
                 (fun x => x.1.2) <$> l, (fun x => x.2) <$> l).
Proof. by destruct l. Qed.

(** [_epoch_end] once every sequence is evaluated. *)
Lemma epoch_end_ok self outputs mode s (ms : list eval_result) :
  ms ≠ [] →
  eval_sequences self (eval_args outputs) = Ok ms →
  _epoch_end self outputs mode s
  = (epoch_report self mode
       (aggregate_metrics ((fun m => m.1.1.1) <$> ms)
          ((fun o => t_shape0 (gt_motion o)) <$> outputs))
       (sum_list ((fun o => t_shape0 (gt_motion o)) <$> outputs)) s, Ok tt).
Proof.
  intros Hne Heval. unfold _epoch_end. rewrite bind_lift, Heval.
  rewrite bind_lift, (unzip4_ok _ Hne). cbn [fst snd].
  unfold epoch_report. case_bool_decide.
  - rewrite ST_bind_assoc, bind_print, ST_bind_assoc, bind_forT_print, bind_print.
    rewrite forT_log. by rewrite !add_printed_app.
  - rewrite bind_ret. by rewrite forT_log.
Qed.

Lemma epoch_end_raise self outputs mode s e :
  eval_sequences self (eval_args outputs) = Raise e →
  _epoch_end self outputs mode s = (s, Raise e).
Proof. intros Heval. unfold _epoch_end. by rewrite bind_lift, Heval. Qed.

Lemma epoch_end_empty self mode s :
  ∃ e, _epoch_end self [] mode s = (s, Raise e).
Proof.
  unfold _epoch_end. rewrite bind_lift.
  destruct (eval_sequences self (eval_args [])) as [ms|e] eqn:E; [|by eexists].
  assert (ms = []) as ->.
  { unfold eval_sequences, pool_starmap, starmap in E. cbn in E.
    destruct (mp (args self)); [destruct (decide _)|]; by simplify_eq. }
  rewrite bind_lift. cbn. by eexists.
Qed.

(** Claim C1, as amended.  Take a non-empty list of step outputs on each
    of which [eval_one_seq], called on the prediction and the ground truth of
    the output with [collision_rad = self.collision_rad] and
    [return_sample_vals = args.save_viz], returns one value per key of
    [stats_func]; when [args.mp] is set, let [self.num_workers] be at least
    1.  Then [_epoch_end] completes and reports a results dictionary with the
    keys of [stats_func] in order.  The entry of a key that contains
    ['_joint'] or ['CR'] is [np.mean] of the values of the sequences; the
    entry of any other key is the sum of these values, each multiplied by the
    agent count of its sequence, divided by the total number of agents. *)
Theorem epoch_end_aggregates self outputs mode s (ms : list eval_result) :
  outputs ≠ [] →
  (mp (args self) = true → (1 ≤ num_workers self)%Z) →
  Forall2 (fun o m => eval_one_seq (pred_motion o) (gt_motion o)
                        (collision_rad self) (save_viz (args self)) = Ok m)
          outputs ms →
  Forall (fun m => length m.1.1.1 = length stats_keys) ms →
  NoDup stats_keys →
  let num_agent_per_seq := (fun o => t_shape0 (gt_motion o)) <$> outputs in
  ∃ results_dict,
    _epoch_end self outputs mode s
    = (epoch_report self mode results_dict (sum_list num_agent_per_seq) s, Ok tt)
    ∧ fst <$> results_dict = stats_keys
    ∧ ∀ k key, stats_keys !! k = Some key →
        ∃ values,
          Forall2 (fun m v => m.1.1.1 !! k = Some v) ms values
          ∧ dict_lookup key results_dict
            = Some (if str_contains "_joint" key || str_contains "CR" key
                    then np_mean values
                    else num_div
                           (np_sum (zip_with num_mul values
                                      (num_of_nat <$> num_agent_per_seq)))
                           (num_of_nat (sum_list num_agent_per_seq))).
Proof.
  intros Hne Hpool Heval Hlen Hnd nums.
  assert (ms ≠ []) as Hms.
  { intros ->. apply Forall2_nil_inv_r in Heval. done. }
  set (M := (fun m : eval_result => m.1.1.1) <$> ms).
  assert (M ≠ []) as HM by (subst M; by destruct ms).
  assert (length (zip_star M) = length stats_keys) as Hcols.
  { apply zip_star_length; [done|]. subst M. by apply Forall_fmap. }
  exists (aggregate_metrics M nums). split; [|split].
  - apply epoch_end_ok; [done|].
    by apply eval_sequences_ok, eval_args_Forall2.
  - rewrite aggregate_metrics_zip by done. rewrite <- list_fmap_compose.
    transitivity (fst <$> zip stats_keys (zip_star M)); [by apply list_fmap_ext|].
    apply fst_zip. lia.
  - intros k key Hk.
    destruct (lookup_lt_is_Some_2 (zip_star M) k) as [col Hcol].
    { rewrite Hcols. by eapply lookup_lt_Some. }
    exists col. split.
    + rewrite zip_star_lookup in Hcol by done. apply mapM_Some in Hcol.
      subst M. by apply Forall2_fmap_l in Hcol.
    + rewrite aggregate_metrics_zip by done.
      by rewrite (dict_lookup_zip (fun kv => aggregate kv.1 kv.2 nums)
                    _ _ k key col).
Qed.

Lemma epoch_end_unzip_fail self outputs mode s :
  eval_sequences self (eval_args outputs) = Ok [] →
  _epoch_end self outputs mode s = (s, Raise ValueError).
Proof. intros Heval. unfold _epoch_end. by rewrite bind_lift, Heval, bind_lift. Qed.

Lemma eval_sequences_raise self args_list :
  (mp (args self) = true → (1 ≤ num_workers self)%Z) →
  (∀ e es, first_arrival (e :: es) ∈ e :: es) →
  failures (eval_partial self <$> args_list) ≠ [] →
  ∃ e, eval_sequences self args_list = Raise e
       ∧ e ∈ failures (eval_partial self <$> args_list).
Proof.
  intros Hpool Harrival Hfail. unfold eval_sequences, pool_starmap, starmap.
  destruct (mp (args self)).
  - rewrite decide_False by (specialize (Hpool eq_refl); lia).
    destruct (failures (eval_partial self <$> args_list)) as [|e es]; [done|].
    eexists. split; [done|]. apply Harrival.
  - pose proof (mapR_failures (eval_partial self) args_list) as Hm.
    destruct (mapR (eval_partial self) args_list) as [ms|e]; [done|].
    exists e. split; [done|]. by apply head_Some_elem_of.
Qed.

(** Claim C7.  If [eval_one_seq] raises on some sequence of the list,
    [_epoch_end] raises an exception that [eval_one_seq] raised on one of the
    sequences, and nothing was printed or logged: the state is the one before
    the call.  The evaluation runs, so the pool has at least one worker when
    [args.mp] is set; the exception of a pool is one of those raised in it. *)
Theorem epoch_end_propagates_failure self outputs mode s :
  (mp (args self) = true → (1 ≤ num_workers self)%Z) →
  (∀ e es, first_arrival (e :: es) ∈ e :: es) →
  (∃ o e, o ∈ outputs
          ∧ eval_partial self (pred_motion o, gt_motion o) = Raise e) →
  ∃ o e, o ∈ outputs
         ∧ eval_partial self (pred_motion o, gt_motion o) = Raise e
         ∧ _epoch_end self outputs mode s = (s, Raise e).
Proof.
  intros Hpool Harrival (o & e & Ho & He).
  destruct (eval_sequences_raise self (eval_args outputs) Hpool Harrival)
    as (e' & Heval & Hin).
  { intros Hnil. assert (e ∈ failures (eval_partial self <$> eval_args outputs)) as Hf.
    { apply elem_of_failures. rewrite <- He. unfold eval_args.
      rewrite <- list_fmap_compose. apply list_elem_of_fmap. by exists o. }
    rewrite Hnil in Hf. by apply elem_of_nil in Hf. }
  apply elem_of_failures in Hin. unfold eval_args in Hin.
  rewrite <- list_fmap_compose in Hin.
  apply list_elem_of_fmap in Hin as (o' & Ho' & Hin).
  exists o', e'. split; [done|]. split; [done|]. by apply epoch_end_raise.
Qed.

Lemma eval_sequences_with_mp self args_list :
  (1 ≤ num_workers self)%Z →
  match eval_sequences (with_mp false self) args_list with
  | Ok ms => eval_sequences (with_mp true self) args_list = Ok ms
  | Raise _ => ∃ e, eval_sequences (with_mp true self) args_list = Raise e
  end.
Proof.
  intros Hw. unfold eval_sequences, pool_starmap, starmap. cbn.
  rewrite decide_False by lia.
  change (eval_partial (with_mp true self)) with (eval_partial (with_mp false self)).
  pose proof (mapR_failures (eval_partial (with_mp false self)) args_list) as Hm.
  destruct (mapR (eval_partial (with_mp false self)) args_list) as [ms|e].
  - by rewrite Hm.
  - destruct (failures _); [done|]. by eexists.
Qed.

(** Claim C2, as amended.  With at least one worker, [_epoch_end] leaves
    the same state with [args.mp] set and unset, and it completes in the one
    case exactly when it completes in the other; when it completes, the
    printed and logged metrics are identical. *)
Theorem epoch_end_pool_agrees self outputs mode s :
  (1 ≤ num_workers self)%Z →
  let in_pool := _epoch_end (with_mp true self) outputs mode s in
  let in_order := _epoch_end (with_mp false self) outputs mode s in
  in_pool.1 = in_order.1
  ∧ is_ok in_pool.2 = is_ok in_order.2
  ∧ (is_ok in_order.2 = true → in_pool = in_order).
Proof.
  intros Hw. cbn zeta.
  pose proof (eval_sequences_with_mp self (eval_args outputs) Hw) as Hev.
  destruct (eval_sequences (with_mp false self) (eval_args outputs))
    as [ms|e] eqn:Eseq.
  - destruct (decide (ms = [])) as [->|Hne].
    + by rewrite !epoch_end_unzip_fail.
    + by rewrite !(epoch_end_ok _ _ _ _ ms).
  - destruct Hev as [e' Hev].
    by rewrite (epoch_end_raise _ _ _ _ _ Hev), (epoch_end_raise _ _ _ _ _ Eseq).
Qed.

(** *** What steps keep in the state *)

Lemma preserves_log {X} (p : state → X) name value :
  (∀ items s, p (add_logged items s) = p s) → preserves p (log name value).
Proof. intros Hp s. apply Hp. Qed.

Lemma preserves_print {X} (p : state → X) item :
  (∀ items s, p (add_printed items s) = p s) → preserves p (print item).
Proof. intros Hp s. apply Hp. Qed.

Lemma step_keeps_outputs self b mode :
  preserves validation_step_outputs (_step self b mode).
Proof.
  unfold _step. apply preserves_bind; [apply preserves_lift|]. intros data.
  apply preserves_bind; [by apply preserves_log|]. intros _.
  apply preserves_bind; [|intros _; apply preserves_ret].
  apply preserves_forT. intros l. by apply preserves_log.
Qed.

Lemma epoch_end_keeps_outputs self outputs mode :
  preserves validation_step_outputs (_epoch_end self outputs mode).
Proof.
  unfold _epoch_end. apply preserves_bind; [apply preserves_lift|]. intros ms.
  apply preserves_bind; [apply preserves_lift|]. intros unzipped.
  apply preserves_bind.
  - case_bool_decide; [|apply preserves_ret].
    apply preserves_bind; [by apply preserves_print|]. intros _.
    apply preserves_bind; [|intros _; by apply preserves_print].
    apply preserves_forT. intros kv. by apply preserves_print.
  - intros _. apply preserves_forT. intros kv. by apply preserves_log.
Qed.

Lemma format_and_save_keeps_outputs self t b timesteps future fr sfx :
  preserves (@validation_step_outputs num tensor pyobj)
    (format_and_save self t b timesteps future fr sfx).
Proof.
  unfold format_and_save. apply preserves_bind; [apply preserves_lift|].
  by intros formatted s.
Qed.

(** Claim C6, as amended.  [training_step] and [test_step] leave
    [validation_step_outputs] as it was.  [validation_step] appends its
    output, with its tensors, to [validation_step_outputs] (and leaves the
    list as it was when the step raises).  [on_validation_epoch_end] empties
    the list when it completes, and leaves it as it was when it raises. *)
Theorem step_outputs_retained self b batch_idx s :
  validation_step_outputs (training_step self b batch_idx s).1
  = validation_step_outputs s
  ∧ validation_step_outputs (test_step self b batch_idx s).1
    = validation_step_outputs s
  ∧ validation_step_outputs (validation_step self b batch_idx s).1
    = match (validation_step self b batch_idx s).2 with
      | Ok loss => (validation_step_outputs s ++ [loss])%list
      | Raise _ => validation_step_outputs s
      end
  ∧ validation_step_outputs (on_validation_epoch_end self s).1
    = if is_ok (on_validation_epoch_end self s).2
      then []
      else validation_step_outputs s.
Proof.
  split; [|split; [|split]].
  - revert s. change (preserves validation_step_outputs (training_step self b batch_idx)).
    unfold training_step. apply preserves_bind; [|intros _; apply step_keeps_outputs].
    case_bool_decide; [by apply preserves_print|apply preserves_ret].
  - revert s. change (preserves validation_step_outputs (test_step self b batch_idx)).
    unfold test_step. apply preserves_bind; [apply step_keeps_outputs|]. intros rd.
    apply preserves_bind; [|intros _; apply preserves_ret].
    destruct (save_traj (args self)); [|apply preserves_ret].
    apply preserves_bind.
    { apply preserves_forT. intros x. apply format_and_save_keeps_outputs. }
    intros _. apply preserves_bind; intros; apply format_and_save_keeps_outputs.
  - unfold validation_step. rewrite ST_bind_eq.
    pose proof (step_keeps_outputs self b "val" s) as Hstep.
    destruct (_step self b "val" s) as [s' [loss|e]]; cbn in *; [|done].
    by rewrite <- Hstep.
  - unfold on_validation_epoch_end. rewrite ST_bind_eq.
    change (get_validation_step_outputs s) with (s, Ok (validation_step_outputs s)).
    cbv beta iota. rewrite ST_bind_eq.
    pose proof (epoch_end_keeps_outputs self (validation_step_outputs s) "val" s) as He.
    by destruct (_epoch_end self (validation_step_outputs s) "val" s) as [s' [[]|e]].
Qed.

(** *** Visualization *)




End TrainerFacts.

(** ** The number of pool workers *)

Lemma cpu_share_closed_form (cpu_count d : Z) :
  (0 ≤ cpu_count)%Z → (1 ≤ d)%Z →
  cpu_share cpu_count d = (100000 * cpu_count / (100000 * d + 1))%Z.
Proof.
  intros Hc Hd. unfold cpu_share, Qtrunc.
  assert ((inject_Z cpu_count / (inject_Z d + (1 # 100000)))%Q
          == (100000 * cpu_count # Z.to_pos (100000 * d + 1)))%Q as Hq.
  { rewrite (Qmake_Qdiv (100000 * cpu_count)).
    rewrite Z2Pos.id by lia. rewrite !inject_Z_mult, inject_Z_plus, inject_Z_mult.
    assert (~ inject_Z d == - (1 # 100000))%Q as Hne.
    { intros E. unfold Qeq in E. cbn in E. lia. }
    field. split.
    - intros E. apply Hne. rewrite <- (Qplus_0_r (inject_Z d)).
      unfold Qeq in *. cbn in *. lia.
    - intros E. unfold Qeq in E. cbn in E. lia. }
  assert (Qle_bool 0 (inject_Z cpu_count / (inject_Z d + (1 # 100000))) = true)
    as ->.
  { apply Qle_bool_iff. rewrite Hq. unfold Qle. cbn. lia. }
  rewrite Hq. unfold Qfloor. by rewrite Z2Pos.id by lia.
Qed.

Lemma cpu_share_divisible (cpu_count d : Z) :
  (1 ≤ d)%Z → (0 < cpu_count ≤ 100000)%Z → (cpu_count mod d = 0)%Z →
  cpu_share cpu_count d = (cpu_count / d - 1)%Z.
Proof.
  intros Hd Hc Hr. rewrite cpu_share_closed_form by lia.
  pose proof (Z.div_mod cpu_count d ltac:(lia)) as Hdm.
  pose proof (Z.div_pos cpu_count d ltac:(lia) ltac:(lia)) as Hk.
  assert (cpu_count / d ≤ cpu_count)%Z as Hkc by (apply Z.div_le_upper_bound; nia).
  rewrite Hr in Hdm. set (k := (cpu_count / d)%Z) in *.
  symmetry. apply Z.div_unique with (r := (100000 * d + 1 - k)%Z); [|nia].
  left. nia.
Qed.

Lemma cpu_share_indivisible (cpu_count d : Z) :
  (1 ≤ d)%Z → (0 ≤ cpu_count ≤ 100000)%Z →
  (cpu_count = 0 ∨ cpu_count mod d ≠ 0)%Z →
  cpu_share cpu_count d = (cpu_count / d)%Z.
Proof.
  intros Hd Hc Hcase. rewrite cpu_share_closed_form by lia.
  pose proof (Z.div_mod cpu_count d ltac:(lia)) as Hdm.
  pose proof (Z.mod_pos_bound cpu_count d ltac:(lia)) as Hr.
  pose proof (Z.div_pos cpu_count d ltac:(lia) ltac:(lia)) as Hk.
  assert (cpu_count / d ≤ cpu_count)%Z as Hkc by (apply Z.div_le_upper_bound; nia).
  set (k := (cpu_count / d)%Z) in *. set (r := (cpu_count mod d)%Z) in *.
  symmetry. apply Z.div_unique with (r := (100000 * r - k)%Z); [|nia].
  left. destruct Hcase as [H0|Hrpos].
  - assert (k = 0)%Z by nia. lia.
  - nia.
Qed.

(** Claim C3, as amended.  With at least one device and at most 100000
    CPUs, the number of pool workers is the smaller of [args.num_workers]
    and [int(cpu_count / (devices + 1e-5))], which is [cpu_count // devices],
    or one less when [devices] divides a positive [cpu_count]; it is at most
    [cpu_count] divided by [devices]. *)
Theorem num_workers_capped (cpu_count : Z) (a : arguments) (d : Z) :
  devices a = Some d → (1 ≤ d)%Z → (0 ≤ cpu_count ≤ 100000)%Z →
  init_num_workers cpu_count a
  = Z.min (args_num_workers a)
          (if decide (0 < cpu_count ∧ cpu_count mod d = 0)%Z
           then cpu_count / d - 1
           else cpu_count / d)%Z
  ∧ (init_num_workers cpu_count a ≤ cpu_count / d)%Z.
Proof.
  intros Hdev Hd Hc. unfold init_num_workers. rewrite Hdev.
  case_decide as Hcase.
  - destruct Hcase as [Hpos Hr].
    rewrite cpu_share_divisible by (done || lia). split; [done|lia].
  - rewrite cpu_share_indivisible by (done || lia). split; [done|lia].
Qed.

(** ** Checkpoints *)

#[local] Instance model_prefix_inj : Inj (=) (=) (String.append "model.").
Proof. intros k1 k2 Heq. cbn in Heq. by simplify_eq. Qed.

Lemma state_dict_lookup (model_dict : gmap string pyval) k :
  kmap (M2 := gmap string) (String.append "model.") model_dict !! ("model." ++ k) = model_dict !! k.
Proof. apply (lookup_kmap (String.append "model.")). Qed.

Lemma state_dict_keys (model_dict : gmap string pyval) k' v :
  kmap (M2 := gmap string) (String.append "model.") model_dict !! k' = Some v →
  ∃ k, k' = "model." ++ k ∧ model_dict !! k = Some v.
Proof.
  intros Hk. apply (lookup_kmap_Some (String.append "model.")) in Hk as (k & -> & Hk).
  by exists k.
Qed.

Lemma dict_get_bind {A} key v (k : pyval → ST (gmap string pyval) A) d :
  d !! key = Some v → (dict_get key ≫= k) d = k v d.
Proof. intros Hd. rewrite ST_bind_eq. unfold dict_get. by rewrite Hd. Qed.

Lemma dict_store_bind {A} key v (k : unit → ST (gmap string pyval) A) d :
  (dict_store key v ≫= k) d = k tt (<[key := v]> d).
Proof. done. Qed.

(** Claim C8, as amended.  For a checkpoint that contains a dictionary
    under ['model_dict'] and the keys ['epoch'], ['scheduler_dict'] and
    ['opt_dict'], [on_load_checkpoint] sets ['state_dict'] to the dictionary
    that maps ['model.' + k] to [v] for every entry [(k, v)] of [model_dict],
    ['global_step'] to [None], ['lr_schedulers'] to [[scheduler_dict]] and
    ['optimizer_states'] to [[opt_dict]], and changes no other entry.  For a
    checkpoint without ['model_dict'] or without ['epoch'] the dictionary is
    left as it was. *)
Theorem load_checkpoint_adapts (checkpoint : gmap string pyval) :
  (∀ model_dict epoch scheduler_dict opt_dict,
     checkpoint !! "model_dict" = Some (PDict model_dict) →
     checkpoint !! "epoch" = Some epoch →
     checkpoint !! "scheduler_dict" = Some scheduler_dict →
     checkpoint !! "opt_dict" = Some opt_dict →
     ∃ state_dict,
       on_load_checkpoint checkpoint
       = (<["optimizer_states" := PList [opt_dict]]>
            (<["lr_schedulers" := PList [scheduler_dict]]>
               (<["global_step" := PNone]>
                  (<["state_dict" := PDict state_dict]> checkpoint))),
          Ok epoch)
       ∧ (∀ k, state_dict !! ("model." ++ k) = model_dict !! k)
       ∧ (∀ k' v, state_dict !! k' = Some v →
                  ∃ k, k' = "model." ++ k ∧ model_dict !! k = Some v))
  ∧ (checkpoint !! "model_dict" = None ∨ checkpoint !! "epoch" = None →
     (on_load_checkpoint checkpoint).1 = checkpoint).
Proof.
  split.
  - intros model_dict epoch scheduler_dict opt_dict Hmd Hep Hsd Hod.
    exists (kmap (M2 := gmap string) (String.append "model.") model_dict).
    split; [|split; [apply state_dict_lookup|apply state_dict_keys]].
    unfold on_load_checkpoint. rewrite ST_bind_eq. unfold get_state.
    cbv beta iota. rewrite bool_decide_eq_true_2 by (rewrite Hmd, Hep; eauto).
    rewrite !ST_bind_assoc.
    rewrite (dict_get_bind _ _ _ _ Hmd). rewrite ST_bind_assoc, bind_lift.
    cbn [dict_items]. rewrite !ST_bind_assoc, dict_store_bind.
    rewrite !ST_bind_assoc, dict_store_bind.
    rewrite !ST_bind_assoc, (dict_get_bind _ scheduler_dict).
    2:{ by rewrite !lookup_insert_ne. }
    rewrite !ST_bind_assoc, dict_store_bind.
    rewrite !ST_bind_assoc, (dict_get_bind _ opt_dict).
    2:{ by rewrite !lookup_insert_ne. }
    rewrite dict_store_bind. unfold dict_get.
    by rewrite !lookup_insert_ne, Hep.
  - intros Hmissing. unfold on_load_checkpoint. rewrite ST_bind_eq. unfold get_state.
    cbv beta iota. rewrite bool_decide_eq_false_2.
    + by rewrite bind_ret.
    + intros [[? Hmd] [? Hep]]. destruct Hmissing; congruence.
Qed.

(** ** Unsupported configurations *)

Section Unsupported.
Context {num tensor pyobj : Type} `{!Numeric num, !Tensor num tensor,
  !External num tensor pyobj}.

Lemma configure_optimizers_unknown (self : @trainer num) scheduler_type :
  lr_scheduler (cfg self) = Some scheduler_type →
  scheduler_type ≠ "linear" → scheduler_type ≠ "step" →
  configure_optimizers self
  = match torch_optim_Adam (lr (cfg self)) with
    | Ok _ => Raise ValueError
    | Raise e => Raise e
    end.
Proof.
  intros Hs Hlin Hstep. unfold configure_optimizers. rewrite Hs. cbn [default].
  destruct (torch_optim_Adam (lr (cfg self))) as [optimizer|e]; [|done].
  cbn [mbind result_bind]. by rewrite !bool_decide_eq_false_2.
Qed.

(** Claim C5, as amended.  For a dataset name that is not eth, hotel,
    univ, zara1, zara2, gen, real_gen or adversarial and does not contain
    ['sdd'], [format_agentformer_trajectories] raises [NotImplementedError]
    when some agent passes the mask, [timesteps] is at least 1 and the first
    source frame exists with at least two columns.  [configure_optimizers]
    raises for every [lr_scheduler] other than ['linear'] and ['step']: the
    [ValueError], once the optimizer is built. *)
Theorem unsupported_configurations_raise (traj : @trajectory num)
    (data : @batch num) (dataset : string) (timesteps : nat) (frame_scale : num)
    (future : bool) (self : @trainer num) :
  (dataset ∉ position_datasets → str_contains "sdd" dataset = false →
   (∃ i track_id, valid_id data !! i = Some track_id
                  ∧ masked_out (pred_mask data) i = Ok false) →
   1 ≤ timesteps →
   (∃ a, source_data data future !! 0 = Some a ∧ 2 ≤ ncols a) →
   format_agentformer_trajectories traj data dataset timesteps frame_scale future
   = Raise NotImplementedError)
  ∧ (∀ scheduler_type,
       lr_scheduler (cfg self) = Some scheduler_type →
       scheduler_type ≠ "linear" → scheduler_type ≠ "step" →
       is_ok (configure_optimizers self) = false
       ∧ (is_ok (torch_optim_Adam (lr (cfg self))) = true →
          configure_optimizers self = Raise ValueError)).
Proof.
  split.
  - intros Hds Hsdd (i & track_id & Hid & Hpass) Ht (a & Ha & Hc).
    by eapply format_unsupported_dataset.
  - intros scheduler_type Hs Hlin Hstep.
    rewrite (configure_optimizers_unknown self scheduler_type Hs Hlin Hstep).
    by destruct (torch_optim_Adam (lr (cfg self))).
Qed.
End Unsupported.

(** ** The theorems on examples *)

Section Examples.
Import Demo.

Lemma format_empty_without_active_agent_witness :
  format_agentformer_trajectories demo_traj masked_batch "nuscenes" 12 10%Q true
  = Ok EmptyArray.
Proof.
  apply (format_empty_without_active_agent demo_traj masked_batch "nuscenes" 12 10%Q true).
  right. exists [0; 0]%Q. split; [reflexivity|].
  intros i Hi. destruct i as [|[|i]]; [by exists 0%Q|by exists 0%Q|cbn in Hi; lia].
Defined.

Lemma format_rows_by_dataset_witness :
  format_agentformer_trajectories demo_traj demo_batch "eth" 2 10%Q true
  = Ok (table_of true 4
          (expected_rows demo_batch 2
             (fun i j => eth_row 10%Q (demo_row i j) (demo_pos i j)))).
Proof.
  refine (proj1 (format_rows_by_dataset demo_traj demo_batch "eth" 2 10%Q true 17
                   demo_row demo_pos _ _) _ _).
  - intros i Hi. destruct i as [|[|i]]; [reflexivity|reflexivity|cbn in Hi; lia].
  - intros i tid j Hi Hp Hj.
    destruct i as [|[|i]]; [|vm_compute in Hp; discriminate Hp|discriminate Hi].
    injection Hi as <-.
    destruct j as [|[|j]]; [| |lia].
    + exists (eth_frame 11). by vm_compute.
    + exists (eth_frame 12). by vm_compute.
  - unfold eth_ucy_datasets. by left.
  - lia.
Defined.

(** C5: with no frame to read the lookup of the first frame fails before
    the dataset is looked at. *)
Lemma format_unsupported_counterexample :
  ("nuscenes" ∉ position_datasets)
  ∧ str_contains "sdd" "nuscenes" = false
  ∧ valid_id bare_batch !! 0 = Some 1%Q
  ∧ masked_out (pred_mask bare_batch) 0 = Ok false
  ∧ format_agentformer_trajectories demo_traj bare_batch "nuscenes" 1 10%Q true
    = Raise IndexError.
Proof.
  split; [|by vm_compute].
  unfold position_datasets. intros Hin.
  repeat (apply elem_of_cons in Hin as [Hin|Hin]; [discriminate Hin|]).
  by apply elem_of_nil in Hin.
Qed.

Lemma unsupported_configurations_raise_witness :
  format_agentformer_trajectories demo_traj demo_batch "nuscenes" 12 10%Q true
  = Raise NotImplementedError
  ∧ configure_optimizers (External0 := demo_external 2) cosine_trainer
    = Raise ValueError.
Proof.
  pose proof (unsupported_configurations_raise (External0 := demo_external 2)
                demo_traj demo_batch "nuscenes" 12 10%Q true cosine_trainer)
    as [Hformat Hsched].
  split.
  - apply Hformat.
    + unfold position_datasets. intros Hin.
      repeat (apply elem_of_cons in Hin as [Hin|Hin]; [discriminate Hin|]).
      by apply elem_of_nil in Hin.
    + reflexivity.
    + exists 0, 1%Q. by vm_compute.
    + lia.
    + exists (eth_frame 11). split; [reflexivity|]. cbn. lia.
  - apply (Hsched "cosine"); [reflexivity|discriminate|discriminate|reflexivity].
Defined.

(** C1: a trainer made with [devices = -1] has no worker; with [args.mp]
    set the pool cannot be made, and nothing is aggregated for a list on
    which [eval_one_seq] succeeds. *)
Lemma epoch_end_aggregates_counterexample :
  [demo_output 2 8; demo_output 3 8] ≠ []
  ∧ mp (args all_devices_trainer) = true
  ∧ num_workers all_devices_trainer = (-8)%Z
  ∧ eval_one_seq (External := demo_external 2)
      (pred_motion (demo_output 2 8)) (gt_motion (demo_output 2 8))
      (collision_rad all_devices_trainer) (save_viz (args all_devices_trainer))
    = Ok ([2; 2; 3; 1 # 10]%Q, "sample_vals", "argmins", "collision_mats")
  ∧ eval_one_seq (External := demo_external 2)
      (pred_motion (demo_output 3 8)) (gt_motion (demo_output 3 8))
      (collision_rad all_devices_trainer) (save_viz (args all_devices_trainer))
    = Ok ([3; 2; 3; 1 # 10]%Q, "sample_vals", "argmins", "collision_mats")
  ∧ _epoch_end (External0 := demo_external 2) all_devices_trainer
      [demo_output 2 8; demo_output 3 8] "test" empty_state
    = (empty_state, Raise ValueError).
Proof. split; [discriminate|]. repeat split; by vm_compute. Qed.

Lemma epoch_end_aggregates_witness :
  ∃ results_dict,
    _epoch_end (External0 := demo_external 2) (demo_trainer false 2)
      [demo_output 2 8; demo_output 3 8] "test" empty_state
    = (epoch_report (demo_trainer false 2) "test" results_dict 5 empty_state, Ok tt)
    ∧ fst <$> results_dict = demo_stats_keys
    ∧ dict_lookup "ADE" results_dict = Some (13 # 5)%Q
    ∧ dict_lookup "ADE_joint" results_dict = Some (6 # 2)%Q.
Proof.
  destruct (epoch_end_aggregates (External0 := demo_external 2)
              (demo_trainer false 2) [demo_output 2 8; demo_output 3 8] "test"
              empty_state
              [([2; 2; 3; 1 # 10]%Q, "sample_vals", "argmins", "collision_mats");
               ([3; 2; 3; 1 # 10]%Q, "sample_vals", "argmins", "collision_mats")])
    as (results_dict & Hrun & Hkeys & Hvalues).
  - discriminate.
  - discriminate.
  - repeat constructor.
  - repeat constructor.
  - apply (bool_decide_unpack _). by vm_compute.
  - exists results_dict. split; [exact Hrun|]. split; [exact Hkeys|].
    destruct (Hvalues 0 "ADE" eq_refl) as (v0 & Hv0 & Hl0).
    destruct (Hvalues 2 "ADE_joint" eq_refl) as (v2 & Hv2 & Hl2).
    apply Forall2_cons_inv_l in Hv0 as (a0 & t0 & Ha0 & Ht0 & ->).
    apply Forall2_cons_inv_l in Ht0 as (b0 & u0 & Hb0 & Hu0 & ->).
    apply Forall2_nil_inv_l in Hu0 as ->.
    apply Forall2_cons_inv_l in Hv2 as (a2 & t2 & Ha2 & Ht2 & ->).
    apply Forall2_cons_inv_l in Ht2 as (b2 & u2 & Hb2 & Hu2 & ->).
    apply Forall2_nil_inv_l in Hu2 as ->.
    cbn in Ha0, Hb0, Ha2, Hb2. simplify_eq. split; [exact Hl0|exact Hl2].
Defined.

(** C2: a pool cannot be made with no worker. *)
Lemma epoch_end_pool_counterexample :
  num_workers (demo_trainer true 0) = 0%Z
  ∧ _epoch_end (External0 := demo_external 2) (with_mp true (demo_trainer true 0))
      [demo_output 2 8] "test" empty_state
    = (empty_state, Raise ValueError)
  ∧ is_ok (_epoch_end (External0 := demo_external 2)
             (with_mp false (demo_trainer true 0))
             [demo_output 2 8] "test" empty_state).2 = true
  ∧ logged (_epoch_end (External0 := demo_external 2)
              (with_mp false (demo_trainer true 0))
              [demo_output 2 8] "test" empty_state).1
    = [("test/ADE", 4 # 2); ("test/FDE", 4 # 2);
       ("test/ADE_joint", 3 # 1); ("test/CR_pred", 1 # 10)]%Q.
Proof. by vm_compute. Qed.

Lemma epoch_end_pool_agrees_witness :
  _epoch_end (External0 := demo_external 2) (with_mp true (demo_trainer true 2))
    [demo_output 2 8] "test" empty_state
  = _epoch_end (External0 := demo_external 2) (with_mp false (demo_trainer true 2))
      [demo_output 2 8] "test" empty_state.
Proof.
  apply (epoch_end_pool_agrees (External0 := demo_external 2) (demo_trainer true 2)
           [demo_output 2 8] "test" empty_state).
  - by vm_compute.
  - reflexivity.
Defined.

(** C3: the command line caps the number of workers. *)
Lemma num_workers_counterexample :
  devices (demo_args true 2) = Some 1%Z
  ∧ init_num_workers 8 (demo_args true 2) = 2%Z
  ∧ init_num_workers 8 (demo_args true 2) ≠ (8 / 1)%Z.
Proof. repeat split; by vm_compute. Qed.

Lemma num_workers_capped_witness :
  init_num_workers 8 (demo_args true 2) = Z.min 2 (8 / 1 - 1)
  ∧ (init_num_workers 8 (demo_args true 2) ≤ 8 / 1)%Z.
Proof.
  apply (num_workers_capped 8 (demo_args true 2) 1); [reflexivity|lia|lia].
Defined.

(** C6: a validation step leaves its output in the trainer. *)
Lemma validation_step_counterexample :
  validation_step_outputs empty_state = []
  ∧ is_ok (validation_step (External0 := demo_external 2) (demo_trainer false 2)
             demo_batch 0 empty_state).2 = true
  ∧ (pred_motion <$>
       validation_step_outputs
         (validation_step (External0 := demo_external 2) (demo_trainer false 2)
            demo_batch 0 empty_state).1)
    = [Arr [Arr [Arr [point 0 0; point 0 0]]; Arr [Arr [point 0 0; point 0 0]]]].
Proof. by vm_compute. Qed.

Lemma epoch_end_propagates_failure_witness :
  ∃ o e,
    o ∈ [demo_output 2 8; demo_output 0 8]
    ∧ eval_partial (External0 := demo_external 2) (demo_trainer false 2)
        (pred_motion o, gt_motion o) = Raise e
    ∧ _epoch_end (External0 := demo_external 2) (demo_trainer false 2)
        [demo_output 2 8; demo_output 0 8] "test" empty_state
      = (empty_state, Raise e).
Proof.
  apply (epoch_end_propagates_failure (External0 := demo_external 2)
           (demo_trainer false 2) [demo_output 2 8; demo_output 0 8] "test"
           empty_state).
  - discriminate.
  - intros e es. by left.
  - exists (demo_output 0 8), (ExternalError "no agent").
    split; [by right; left|reflexivity].
Defined.

(** C8: a checkpoint with a model and an epoch but no scheduler state is
    rewritten half way. *)
Lemma load_checkpoint_counterexample :
  bare_checkpoint !! "model_dict" = Some (PDict {[ "w" := PObj 0 ]})
  ∧ bare_checkpoint !! "epoch" = Some (PInt 5)
  ∧ (on_load_checkpoint bare_checkpoint).2 = Raise (KeyError "scheduler_dict")
  ∧ (on_load_checkpoint bare_checkpoint).1 !! "global_step" = Some PNone
  ∧ (on_load_checkpoint bare_checkpoint).1 !! "lr_schedulers" = None
  ∧ (on_load_checkpoint bare_checkpoint).1 !! "optimizer_states" = None.
Proof. repeat split; by vm_compute. Qed.

Lemma load_checkpoint_adapts_witness :
  ∃ state_dict,
    on_load_checkpoint legacy_checkpoint
    = (<["optimizer_states" := PList [PObj 2]]>
         (<["lr_schedulers" := PList [PObj 1]]>
            (<["global_step" := PNone]>
               (<["state_dict" := PDict state_dict]> legacy_checkpoint))),
       Ok (PInt 5))
    ∧ state_dict !! "model.w" = Some (PObj 0).
Proof.
  destruct (proj1 (load_checkpoint_adapts legacy_checkpoint)
              {[ "w" := PObj 0 ]} (PInt 5) (PObj 1) (PObj 2))
    as (state_dict & Hrun & Hlookup & _); [by vm_compute..|].
  exists state_dict. split; [exact Hrun|]. apply (Hlookup "w").
Defined.


End Examples.

(** * Further properties *)

(** ** [format_agentformer_trajectories]: edge cases *)

Section FormatEdges.
Context {num : Type} `{!Numeric num}.
Local Abbreviation ndarray := (@ndarray num).
Local Abbreviation batch := (@batch num).
Local Abbreviation trajectory := (@trajectory num).
Implicit Types (data : batch) (traj : trajectory).

Lemma mapR_raise_at {A B} (f : A → result B) (l1 l2 : list A) x e :
  (∀ y, y ∈ l1 → is_ok (f y) = true) → f x = Raise e →
  mapR f (l1 ++ x :: l2) = Raise e.
Proof.
  induction l1 as [|y l1 IH]; intros Hok Hx; cbn [app].
  - by apply mapR_cons_raise.
  - pose proof (Hok y ltac:(by left)) as Hy. destruct (f y) as [b|] eqn:Ey; [|done].
    rewrite (mapR_cons_ok _ _ _ _ Ey), IH; [done| |done].
    intros z Hz. apply Hok. by right.
Qed.

Lemma mapR_not_ok {A B} (f : A → result B) (l : list A) x :
  x ∈ l → is_ok (f x) = false → is_ok (mapR f l) = false.
Proof.
  intros Hin Hx. induction l as [|y l IH]; [by apply elem_of_nil in Hin|].
  cbn. destruct (f y) as [b|e] eqn:Ey; [|done]. cbn.
  apply elem_of_cons in Hin as [->|Hin]; [by rewrite Ey in Hx|].
  specialize (IH Hin). by destruct (mapR f l).
Qed.

(** With [timesteps = 0] the inner loop never runs: the empty array is
    returned for every dataset name, as long as the mask has an entry for
    every agent. *)
Theorem format_zero_timesteps traj data dataset frame_scale future :
  (∀ i, i < length (valid_id data) →
        is_ok (masked_out (pred_mask data) i) = true) →
  format_agentformer_trajectories traj data dataset 0 frame_scale future
  = Ok EmptyArray.
Proof.
  intros Hmask. unfold format_agentformer_trajectories, format_loop.
  rewrite (mapR_ok _ (fun _ => [])).
  - cbn. by induction (enumerate (valid_id data)).
  - intros [i tid] Hin. apply elem_of_enumerate in Hin. unfold format_agent. cbn.
    specialize (Hmask i (lookup_lt_Some _ _ _ Hin)).
    by destruct (masked_out (pred_mask data) i) as [[]|].
Qed.

(** A mask that is shorter than [valid_id] and keeps no agent: the loop
    reads past the end of the mask and the call raises [IndexError]. *)
Theorem format_short_mask traj data dataset timesteps frame_scale future m :
  pred_mask data = Some m →
  length m < length (valid_id data) →
  (∀ v, v ∈ m → num_eqb v (num_lit 1) = false) →
  format_agentformer_trajectories traj data dataset timesteps frame_scale future
  = Raise IndexError.
Proof.
  intros Hm Hlen Hall. unfold format_agentformer_trajectories, format_loop.
  destruct (lookup_lt_is_Some_2 (valid_id data) (length m) Hlen) as [tid Htid].
  assert (enumerate (valid_id data) !! length m = Some (length m, tid)) as Hi
    by by apply lookup_enumerate.
  rewrite <- (take_drop_middle _ _ _ Hi).
  rewrite (mapR_raise_at _ _ _ _ IndexError); [done| |].
  - intros [k tid'] Hin. apply elem_of_take in Hin as (p & Hp & Hlt).
    apply lookup_enumerate in Hp as [-> _].
    unfold format_agent. cbn. rewrite Hm. unfold masked_out, py_index.
    destruct (lookup_lt_is_Some_2 m p Hlt) as [v Hv]. rewrite Hv. cbn.
    rewrite (Hall v) by by eapply list_elem_of_lookup_2. done.
  - unfold format_agent. cbn. rewrite Hm. unfold masked_out, py_index.
    by rewrite lookup_ge_None_2.
Qed.

(** The datasets gen, real_gen and adversarial: the position is written
    into columns 13 and 15, all columns are kept and the frame id is not
    scaled. *)
Theorem format_generated_datasets traj data dataset timesteps frame_scale future
    (w : nat) (row : nat → nat → list num) (pos : nat → nat → num * num) :
  dataset ∈ ["gen"; "real_gen"; "adversarial"] →
  16 ≤ w →
  (∀ i, i < length (valid_id data) →
        is_ok (masked_out (pred_mask data) i) = true) →
  (∀ i tid j,
     valid_id data !! i = Some tid → passes (pred_mask data) i = true →
     j < timesteps →
     ∃ a, source_data data future !! j = Some a
          ∧ select_track a tid = Ok [row i j]
          ∧ length (row i j) = w
          ∧ traj_at (if future then traj else flip01 traj) i j = Ok (pos i j)) →
  format_agentformer_trajectories traj data dataset timesteps frame_scale future
  = Ok (table_of future w
          (expected_rows data timesteps
             (fun i j => placed 13 15 (row i j) (pos i j)))).
Proof.
  intros Hds Hw Hmask Hrow.
  assert (dataset ∈ position_datasets ∧ (dataset ∉ eth_ucy_datasets)
          ∧ dataset ≠ "trajnet_sdd") as (Hpos & Heth & Hsdd).
  { unfold position_datasets, eth_ucy_datasets.
    repeat (apply elem_of_cons in Hds as [->|Hds];
            [split; [repeat constructor|split; [|discriminate]];
             intros Hin;
             repeat (apply elem_of_cons in Hin as [Hin|Hin]; [discriminate Hin|]);
             by apply elem_of_nil in Hin|]).
    by apply elem_of_nil in Hds. }
  unfold format_agentformer_trajectories.
  rewrite (format_loop_found _ data dataset timesteps future w 13 15 row pos);
    [|done|done|lia|lia|by left].
  cbn [mbind result_bind].
  rewrite bool_decide_eq_false_2 by done. rewrite bool_decide_eq_false_2 by done.
  rewrite <- (list_fmap_id (expected_rows data timesteps _)) at 2.
  apply (finish_table future w).
  - apply expected_rows_width. intros i tid j Hi Hp Hj. rewrite length_placed.
    by destruct (Hrow i tid j Hi Hp Hj) as (a & _ & _ & Hl & _).
  - by rewrite list_fmap_id.
Qed.


Lemma format_step_no_row traj data dataset future i track_id j a :
  source_data data future !! j = Some a →
  filter (fun r => track_matches track_id r = true) (rows a) = [] →
  is_ok (format_step traj data dataset future i track_id j) = false.
Proof.
  intros Ha Hnone. unfold format_step, py_index. rewrite Ha. cbn.
  unfold select_track. destruct (decide (2 ≤ ncols a)); [|done]. cbn.
  rewrite Hnone. cbn.
  destruct (bool_decide (dataset ∈ position_datasets)).
  - destruct (traj_at traj i j); [|done]. cbn.
    destruct (decide (ncols a = 2)); [|done]. cbn.
    by rewrite decide_False by (cbn; lia).
  - destruct (str_contains "sdd" dataset); [|done].
    destruct (traj_at traj i j); [|done]. cbn.
    destruct (decide (ncols a = 2)); [|done]. cbn.
    by rewrite decide_False by (cbn; lia).
Qed.

(** An agent that passes the mask is never dropped silently: if one of the
    frames read has no row with its track id, the call raises, whatever the
    dataset name is. *)
Theorem format_missing_track_raises traj data dataset timesteps frame_scale future
    i track_id j a :
  valid_id data !! i = Some track_id →
  masked_out (pred_mask data) i = Ok false →
  j < timesteps →
  source_data data future !! j = Some a →
  filter (fun r => track_matches track_id r = true) (rows a) = [] →
  is_ok (format_agentformer_trajectories traj data dataset timesteps
           frame_scale future) = false.
Proof.
  intros Hid Hpass Hj Ha Hnone. unfold format_agentformer_trajectories, format_loop.
  assert (is_ok (mapR (format_agent (if future then traj else flip01 traj) data
                         dataset timesteps future) (enumerate (valid_id data)))
          = false) as Hloop.
  { apply (mapR_not_ok _ _ (i, track_id)); [by apply elem_of_enumerate|].
    unfold format_agent. cbn. rewrite Hpass. cbn.
    apply (mapR_not_ok _ _ j); [apply elem_of_seq; lia|].
    by eapply format_step_no_row. }
  by destruct (mapR _ (enumerate (valid_id data))).
Qed.
End FormatEdges.

(** ** Steps *)

Section StepFacts.
Context {num tensor pyobj : Type} `{!Numeric num, !Tensor num tensor,
  !External num tensor pyobj}.

Local Abbreviation batch := (@batch num).
Local Abbreviation step_output := (step_output num tensor).
Local Abbreviation state := (@state num tensor pyobj).
Local Abbreviation trainer := (@trainer num).
Local Abbreviation eval_result := (list num * pyobj * pyobj * pyobj)%type.
Implicit Types (self : trainer) (s : state) (outputs : list step_output)
  (b : batch).

Lemma bind_log {B} name value (k : unit → ST state B) s :
  (log name value ≫= k) s = k tt (add_logged [(name, value)] s).
Proof. done. Qed.

Lemma step_eq self b mode s :
  _step self b mode s
  = match run_model b with
    | Ok data =>
        (add_logged ((mode ++ "/loss", total_loss data)
                     :: ((fun l => (mode ++ "/" ++ l.1, l.2)) <$> loss_dict data)) s,
         Ok {| out_loss := total_loss data;
               out_losses := loss_dict data;
               out_frame := frame b;
               out_seq := seq_name b;
               gt_motion := t_scale (traj_scale (cfg self))
                              (t_transpose (fut_motion data));
               pred_motion := t_scale (traj_scale (cfg self))
                                (infer_dec_motion data);
               obs_motion := t_scale (traj_scale (cfg self)) (pre_motion data);
               out_data := data |})
    | Raise e => (s, Raise e)
    end.
Proof.
  unfold _step. rewrite bind_lift. destruct (run_model b) as [data|e]; [|done].
  rewrite bind_log, ST_bind_eq, forT_log. by rewrite add_logged_app.
Qed.

(** [_step] logs the total loss under [mode/loss] and then every loss of
    [loss_dict] under [mode/name], in order, and changes nothing else.  When
    the network raises, nothing is logged. *)
Theorem step_logs_losses self b mode s :
  let r := _step self b mode s in
  match run_model b with
  | Ok data =>
      is_ok r.2 = true
      ∧ r.1 = add_logged
                ((mode ++ "/loss", total_loss data)
                 :: ((fun l => (mode ++ "/" ++ l.1, l.2)) <$> loss_dict data)) s
  | Raise e => r = (s, Raise e)
  end.
Proof. cbn zeta. rewrite step_eq. by destruct (run_model b). Qed.

Lemma add_saved_nil s : add_saved [] s = s.
Proof. destruct s. unfold add_saved. cbn. by rewrite app_nil_r. Qed.

Lemma add_saved_app l1 l2 s :
  add_saved l2 (add_saved l1 s) = add_saved (l1 ++ l2)%list s.
Proof. unfold add_saved. cbn. by rewrite app_assoc. Qed.

Lemma format_and_save_eq self t b timesteps future sfx s :
  format_and_save self t b timesteps future
    (num_mul (frame b) (frame_scale_of b)) sfx s
  = match format_agentformer_trajectories (t_trajectory t) b (dataset (cfg self))
            timesteps (frame_scale_of b) future with
    | Ok f => (add_saved [(traj_file_of self b sfx, f)] s, Ok tt)
    | Raise e => (s, Raise e)
    end.
Proof.
  unfold format_and_save. rewrite bind_lift.
  by destruct (format_agentformer_trajectories _ _ _ _ _ _).
Qed.

Lemma save_samples self b (start : nat) (samples : list tensor) fs s :
  Forall2 (fun smp f =>
             format_agentformer_trajectories (t_trajectory smp) b
               (dataset (cfg self)) 12 (frame_scale_of b) true = Ok f)
          samples fs →
  forT (zip (seq start (length samples)) samples)
       (fun x => format_and_save self x.2 b 12 true
                   (num_mul (frame b) (frame_scale_of b)) (SampleFile x.1)) s
  = (add_saved (zip_with (fun idx f => (traj_file_of self b (SampleFile idx), f))
                  (seq start (length fs)) fs) s, Ok tt).
Proof.
  intros Hall. revert start s.
  induction Hall as [|smp f samples fs Hf _ IH]; intros start s.
  - cbn. by rewrite add_saved_nil.
  - cbn [length seq zip zip_with forT]. rewrite ST_bind_eq.
    cbn [fst snd]. rewrite format_and_save_eq, Hf.
    change (zip_with pair (seq (S start) (length samples)) samples)
      with (zip (seq (S start) (length samples)) samples).
    rewrite IH. by rewrite add_saved_app.
Qed.

(** With [args.save_traj] set and every formatting call succeeding,
    [test_step] writes one file per sample, numbered from 0 in the order
    of the samples, then the ground-truth file and then the file of the
    observations; the frame in each name is [frame * frame_scale]. *)
Theorem test_step_saves_files self b batch_idx s data fs fg fo :
  run_model b = Ok data →
  save_traj (args self) = true →
  Forall2 (fun smp f =>
             format_agentformer_trajectories (t_trajectory smp) b
               (dataset (cfg self)) 12 (frame_scale_of b) true = Ok f)
          (t_unstack (t_transpose
             (t_scale (traj_scale (cfg self)) (infer_dec_motion data)))) fs →
  format_agentformer_trajectories
    (t_trajectory (t_scale (traj_scale (cfg self))
                     (t_transpose (fut_motion data))))
    b (dataset (cfg self)) 12 (frame_scale_of b) true = Ok fg →
  format_agentformer_trajectories
    (t_trajectory (t_transpose (t_scale (traj_scale (cfg self))
                                  (pre_motion data))))
    b (dataset (cfg self)) 8 (frame_scale_of b) false = Ok fo →
  ∃ s1 return_dict,
    _step self b "test" s = (s1, Ok return_dict)
    ∧ test_step self b batch_idx s
      = (add_saved
           (zip_with (fun idx f => (traj_file_of self b (SampleFile idx), f))
              (seq 0 (length fs)) fs
            ++ [(traj_file_of self b GtFile, fg);
                (traj_file_of self b ObsFile, fo)])%list s1,
         Ok return_dict).
Proof.
  intros Hrun Hsave Hsamples Hgt Hobs.
  pose proof (step_eq self b "test" s) as Hstep. rewrite Hrun in Hstep.
  eexists _, _. split; [exact Hstep|].
  unfold test_step. rewrite ST_bind_eq, Hstep. cbv beta iota.
  rewrite Hsave. rewrite ST_bind_eq. unfold enumerate.
  rewrite ST_bind_eq. cbn [pred_motion gt_motion obs_motion].
  rewrite (save_samples self b 0 _ fs _ Hsamples).
  cbv beta iota. rewrite ST_bind_eq, format_and_save_eq, Hgt.
  cbv beta iota. rewrite format_and_save_eq, Hobs.
  cbv beta iota. rewrite !add_saved_app. try rewrite <- app_assoc. done.
Qed.

(** Files are written as the loop goes: when the formatting of the
    observations raises, the files of the samples and of the ground truth
    are already written, and [test_step] raises that exception. *)
Theorem test_step_keeps_earlier_files self b batch_idx s data fs fg e :
  run_model b = Ok data →
  save_traj (args self) = true →
  Forall2 (fun smp f =>
             format_agentformer_trajectories (t_trajectory smp) b
               (dataset (cfg self)) 12 (frame_scale_of b) true = Ok f)
          (t_unstack (t_transpose
             (t_scale (traj_scale (cfg self)) (infer_dec_motion data)))) fs →
  format_agentformer_trajectories
    (t_trajectory (t_scale (traj_scale (cfg self))
                     (t_transpose (fut_motion data))))
    b (dataset (cfg self)) 12 (frame_scale_of b) true = Ok fg →
  format_agentformer_trajectories
    (t_trajectory (t_transpose (t_scale (traj_scale (cfg self))
                                  (pre_motion data))))
    b (dataset (cfg self)) 8 (frame_scale_of b) false = Raise e →
  ∃ s1 return_dict,
    _step self b "test" s = (s1, Ok return_dict)
    ∧ test_step self b batch_idx s
      = (add_saved
           (zip_with (fun idx f => (traj_file_of self b (SampleFile idx), f))
              (seq 0 (length fs)) fs
            ++ [(traj_file_of self b GtFile, fg)])%list s1,
         Raise e).
Proof.
  intros Hrun Hsave Hsamples Hgt Hobs.
  pose proof (step_eq self b "test" s) as Hstep. rewrite Hrun in Hstep.
  eexists _, _. split; [exact Hstep|].
  unfold test_step. rewrite ST_bind_eq, Hstep. cbv beta iota.
  rewrite Hsave. rewrite ST_bind_eq. unfold enumerate.
  rewrite ST_bind_eq. cbn [pred_motion gt_motion obs_motion].
  rewrite (save_samples self b 0 _ fs _ Hsamples).
  cbv beta iota. rewrite ST_bind_eq, format_and_save_eq, Hgt.
  cbv beta iota. rewrite format_and_save_eq, Hobs.
  cbv beta iota. by rewrite !add_saved_app.
Qed.

Lemma forT_all_raise {A} (l : list A) (body : A → ST state unit) e s :
  (∀ x s, body x s = (s, Raise e)) →
  forT l body s = (s, match l with [] => Ok tt | _ => Raise e end).
Proof.
  intros Hbody. destruct l as [|x l]; [done|].
  cbn [forT]. by rewrite ST_bind_eq, Hbody.
Qed.

(** With [args.save_traj] set and a dataset the formatting does not know,
    [test_step] raises [NotImplementedError] after the losses are logged
    and before any file is written. *)
Theorem test_step_unsupported_dataset self b batch_idx s data :
  run_model b = Ok data →
  save_traj (args self) = true →
  dataset (cfg self) ∉ position_datasets →
  str_contains "sdd" (dataset (cfg self)) = false →
  (∃ i track_id, valid_id b !! i = Some track_id
                 ∧ masked_out (pred_mask b) i = Ok false) →
  (∃ a, fut_data b !! 0 = Some a ∧ 2 ≤ ncols a) →
  ∃ s1 return_dict,
    _step self b "test" s = (s1, Ok return_dict)
    ∧ saved s1 = saved s
    ∧ test_step self b batch_idx s = (s1, Raise NotImplementedError).
Proof.
  intros Hrun Hsave Hds Hsdd (i & tid & Hid & Hpass) (a & Ha & Hc).
  pose proof (step_eq self b "test" s) as Hstep. rewrite Hrun in Hstep.
  eexists _, _. split; [exact Hstep|]. split; [done|].
  assert (∀ t sfx s0,
            format_and_save self t b 12 true
              (num_mul (frame b) (frame_scale_of b)) sfx s0
            = (s0, Raise NotImplementedError)) as Hfail.
  { intros t sfx s0. rewrite format_and_save_eq.
    by rewrite (format_unsupported_dataset _ b _ 12 _ true i tid a) by (done || lia). }
  unfold test_step. rewrite ST_bind_eq, Hstep. cbv beta iota.
  rewrite Hsave. rewrite ST_bind_eq. rewrite ST_bind_eq.
  rewrite (forT_all_raise _ _ NotImplementedError); [|intros x s0; apply Hfail].
  destruct (enumerate _); [|done].
  cbv beta iota. by rewrite ST_bind_eq, Hfail.
Qed.
End StepFacts.

(** ** Epoch end *)

Section EpochFacts.
Context {num tensor pyobj : Type} `{!Numeric num, !Tensor num tensor,
  !External num tensor pyobj}.

Local Abbreviation step_output := (step_output num tensor).
Local Abbreviation state := (@state num tensor pyobj).
Local Abbreviation trainer := (@trainer num).
Implicit Types (self : trainer) (s : state) (outputs : list step_output).

(** An epoch without step outputs: [zip] yields nothing to unpack, and the
    pool, if any, may already refuse to start.  [_epoch_end] raises
    [ValueError] and neither prints nor logs. *)
Theorem epoch_end_empty_raises self mode s :
  _epoch_end self [] mode s = (s, Raise ValueError).
Proof.
  unfold _epoch_end. rewrite bind_lift.
  unfold eval_sequences, pool_starmap, starmap. cbn.
  destruct (mp (args self)); [destruct (decide _)|]; by rewrite ?bind_lift.
Qed.

Lemma epoch_end_pool_refused self outputs mode s :
  mp (args self) = true → (num_workers self < 1)%Z →
  _epoch_end self outputs mode s = (s, Raise ValueError).
Proof.
  intros Hmp Hw. apply epoch_end_raise.
  unfold eval_sequences, pool_starmap. rewrite Hmp. by rewrite decide_True.
Qed.

(** With [args.mp] set and fewer than one worker the pool cannot be made:
    [_epoch_end] raises [ValueError] before any sequence is evaluated and
    neither prints nor logs. *)
Theorem epoch_end_without_worker self outputs mode s :
  mp (args self) = true → (num_workers self < 1)%Z →
  _epoch_end self outputs mode s = (s, Raise ValueError).
Proof. apply epoch_end_pool_refused. Qed.

(** Without a pool the sequences are evaluated in order: the exception of
    the first sequence on which [eval_one_seq] raises is the one that
    [_epoch_end] raises. *)
Theorem epoch_end_first_failure self outputs mode s i o e :
  mp (args self) = false →
  outputs !! i = Some o →
  eval_partial self (pred_motion o, gt_motion o) = Raise e →
  (∀ k o', k < i → outputs !! k = Some o' →
           is_ok (eval_partial self (pred_motion o', gt_motion o')) = true) →
  _epoch_end self outputs mode s = (s, Raise e).
Proof.
  intros Hmp Ho He Hbefore. apply epoch_end_raise.
  unfold eval_sequences, starmap. rewrite Hmp.
  assert (eval_args outputs !! i = Some (pred_motion o, gt_motion o)) as Hi.
  { unfold eval_args. by rewrite list_lookup_fmap, Ho. }
  rewrite <- (take_drop_middle _ _ _ Hi).
  apply mapR_raise_at; [|done].
  intros a Hin. apply elem_of_take in Hin as (k & Hk & Hlt).
  unfold eval_args in Hk. rewrite list_lookup_fmap in Hk.
  destruct (outputs !! k) as [o'|] eqn:Ek; [|done]. cbn in Hk. simplify_eq.
  by eapply Hbefore.
Qed.

Lemma epoch_end_preserves {X} (p : state → X) self outputs mode :
  (∀ items s, p (add_logged items s) = p s) →
  (mode = "test" → ∀ items s, p (add_printed items s) = p s) →
  preserves p (_epoch_end self outputs mode).
Proof.
  intros Hlog Hprint. unfold _epoch_end.
  apply preserves_bind; [apply preserves_lift|]. intros ms.
  apply preserves_bind; [apply preserves_lift|]. intros unzipped.
  apply preserves_bind.
  - case_bool_decide as Hmode; [|apply preserves_ret].
    specialize (Hprint Hmode).
    apply preserves_bind; [by apply preserves_print|]. intros _.
    apply preserves_bind; [|intros _; by apply preserves_print].
    apply preserves_forT. intros kv. by apply preserves_print.
  - intros _. apply preserves_forT. intros kv. by apply preserves_log.
Qed.

(** [_epoch_end] writes no file, makes no directory and plots nothing,
    and outside test mode it prints nothing: all it leaves is log
    entries.  This holds whether it completes or raises. *)
Theorem epoch_end_only_logs self outputs mode s :
  let s' := (_epoch_end self outputs mode s).1 in
  saved s' = saved s
  ∧ made_dirs s' = made_dirs s
  ∧ plotted s' = plotted s
  ∧ (mode ≠ "test" → printed s' = printed s).
Proof.
  cbn zeta. split; [|split; [|split]]; [| | |intros Hmode]; revert s;
    match goal with
    | |- ∀ s, ?p _ = ?p s => change (preserves p (_epoch_end self outputs mode))
    end; apply epoch_end_preserves; done.
Qed.

Lemma dict_lookup_zip_option {A} (g : string * A → num) (ks : list string)
    (cols : list A) k key :
  NoDup ks → ks !! k = Some key →
  dict_lookup key ((fun kv => (kv.1, g kv)) <$> zip ks cols)
  = (fun col => g (key, col)) <$> cols !! k.
Proof.
  revert cols k. induction ks as [|k0 ks IH]; intros cols k Hnd Hk; [done|].
  apply NoDup_cons in Hnd as [Hfresh Hnd].
  destruct cols as [|c cols].
  { by destruct k. }
  destruct k as [|k]; cbn in *.
  - simplify_eq. by rewrite decide_True.
  - rewrite decide_False; [by apply IH|].
    intros ->. apply Hfresh. by eapply list_elem_of_lookup_2.
Qed.

(** [zip] stops at the shortest list: the key at position [k] gets an
    aggregate exactly when every sequence has a [k]-th metric value; the
    keys past the shortest list of values are left out without an error. *)
Theorem aggregate_metrics_truncates (all_metrics : list (list num))
    (num_agent_per_seq : list nat) k key :
  NoDup stats_keys → all_metrics ≠ [] →
  stats_keys !! k = Some key →
  is_Some (dict_lookup key (aggregate_metrics all_metrics num_agent_per_seq))
  ↔ Forall (fun m => k < length m) all_metrics.
Proof.
  intros Hnd Hne Hk. rewrite aggregate_metrics_zip by done.
  rewrite (dict_lookup_zip_option
             (fun kv => aggregate kv.1 kv.2 num_agent_per_seq) _ _ k key Hnd Hk).
  rewrite fmap_is_Some, zip_star_lookup by done.
  split.
  - intros [col Hcol]. apply mapM_Some in Hcol.
    apply Forall_forall. intros m Hm.
    apply list_elem_of_lookup in Hm as [p Hp].
    destruct (Forall2_lookup_l _ _ _ p m Hcol Hp) as (v & _ & Hv).
    by eapply lookup_lt_Some.
  - intros Hall. destruct (mapM (fun l => l !! k) all_metrics) eqn:E; [done|].
    apply mapM_None in E. apply Exists_exists in E as (m & Hm & Hnone).
    rewrite Forall_forall in Hall. specialize (Hall m Hm).
    apply lookup_ge_None in Hnone. lia.
Qed.
End EpochFacts.

(** ** Visualization *)

Section VizFacts.
Context {num tensor pyobj : Type} `{!Numeric num, !Tensor num tensor,
  !External num tensor pyobj}.

Local Abbreviation step_output := (step_output num tensor).
Local Abbreviation state := (@state num tensor pyobj).
Local Abbreviation trainer := (@trainer num).
Implicit Types (self : trainer) (s : state) (outputs : list step_output).

Lemma viz_one_completes self argmins collision_mats tag it p s :
  round_completes self argmins collision_mats tag it p →
  viz_one self argmins collision_mats tag it s
  = ((mkdir_if_missing (anim_file_of self tag it) s).1, Ok p).
Proof.
  intros (Hlen & arrays & Harr & Hargs). unfold viz_one.
  rewrite ST_bind_eq, bool_decide_eq_true_2 by done. cbn [mret ST_ret].
  rewrite bind_lift, Harr, ST_bind_eq. unfold lift. by rewrite Hargs.
Qed.

Lemma viz_rounds_complete self argmins collision_mats tag l ps s :
  Forall2 (round_completes self argmins collision_mats tag) l ps →
  ∃ s', mapT l (viz_one self argmins collision_mats tag) s = (s', Ok ps)
        ∧ made_dirs s' = (made_dirs s ++ (anim_file_of self tag <$> l))%list
        ∧ plotted s' = plotted s
        ∧ logged s' = logged s ∧ printed s' = printed s ∧ saved s' = saved s.
Proof.
  intros Hall. revert s. induction Hall as [|it p l ps Hit _ IH]; intros s.
  - exists s. cbn. by rewrite app_nil_r.
  - cbn [mapT]. rewrite ST_bind_eq, (viz_one_completes _ _ _ _ _ p) by done.
    destruct (IH (mkdir_if_missing (anim_file_of self tag it) s).1)
      as (s' & Hrun & Hdirs & Hplot & Hlog & Hprint & Hsaved).
    exists s'. rewrite ST_bind_eq, Hrun. split; [done|].
    rewrite Hdirs, Hplot, Hlog, Hprint, Hsaved. cbn. by rewrite <- app_assoc.
Qed.

Lemma plot_in_order_all self (ps : list pyobj) s :
  Forall (fun p => plot_anim_grid p = Ok tt) ps →
  ∃ s', plot_in_order ps s = (s', Ok tt)
        ∧ plotted s' = (plotted s ++ ps)%list
        ∧ made_dirs s' = made_dirs s.
Proof.
  intros Hall. unfold plot_in_order. revert s.
  induction Hall as [|p ps Hp _ IH]; intros s.
  - exists s. cbn. by rewrite app_nil_r.
  - cbn [forT]. rewrite ST_bind_eq, bind_lift, Hp.
    destruct (IH (record_plots [p] s).1) as (s' & Hrun & Hplot & Hdirs).
    exists s'. change (record_plots [p] s) with ((record_plots [p] s).1, Ok tt).
    cbv beta iota. rewrite Hrun. split; [done|]. rewrite Hplot, Hdirs. cbn.
    by rewrite <- app_assoc.
Qed.

Lemma failures_all_ok (ps : list pyobj) :
  Forall (fun p => plot_anim_grid p = Ok tt) ps →
  failures (plot_anim_grid <$> ps) = [].
Proof.
  induction 1 as [|p ps Hp _ IH]; [done|]. cbn. by rewrite Hp.
Qed.

(** When every round of the loop completes and every animation can be
    made, [_save_viz] makes one directory per pair of an output and its
    sample values, in order, and plots every argument list, in a pool of at
    least one worker as without a pool. *)
Theorem save_viz_plots_all self outputs (all_sample_vals : list pyobj)
    all_meters_values argmins collision_mats tag s ps :
  (mp (args self) = true → (1 ≤ num_workers self)%Z) →
  Forall2 (round_completes self argmins collision_mats tag)
          (enumerate (zip outputs all_sample_vals)) ps →
  Forall (fun p => plot_anim_grid p = Ok tt) ps →
  let r := _save_viz self outputs all_sample_vals all_meters_values argmins
             collision_mats tag s in
  r.2 = Ok tt
  ∧ plotted r.1 = (plotted s ++ ps)%list
  ∧ made_dirs r.1
    = (made_dirs s
       ++ (anim_file_of self tag <$> enumerate (zip outputs all_sample_vals)))%list.
Proof.
  intros Hpool Hrounds Hplots. cbn zeta. unfold _save_viz. rewrite ST_bind_eq.
  destruct (viz_rounds_complete self argmins collision_mats tag _ ps s Hrounds)
    as (s1 & Hrun & Hdirs & Hplot & _). rewrite Hrun.
  destruct (mp (args self)) eqn:Hmp.
  - unfold plot_in_pool. rewrite decide_False by (specialize (Hpool eq_refl); lia).
    rewrite (failures_all_ok ps Hplots).
    cbn. by rewrite Hplot, Hdirs.
  - destruct (plot_in_order_all self ps s1 Hplots) as (s2 & -> & Hp2 & Hd2).
    cbn. by rewrite Hp2, Hd2, Hplot, Hdirs.
Qed.

(** With [args.mp] set and fewer than one worker, the loop still runs and
    makes its directories; the pool then cannot be made: [ValueError] is
    raised and nothing is plotted. *)
Theorem save_viz_without_worker self outputs (all_sample_vals : list pyobj)
    all_meters_values argmins collision_mats tag s ps :
  mp (args self) = true → (num_workers self < 1)%Z →
  Forall2 (round_completes self argmins collision_mats tag)
          (enumerate (zip outputs all_sample_vals)) ps →
  let r := _save_viz self outputs all_sample_vals all_meters_values argmins
             collision_mats tag s in
  r.2 = Raise ValueError
  ∧ plotted r.1 = plotted s
  ∧ made_dirs r.1
    = (made_dirs s
       ++ (anim_file_of self tag <$> enumerate (zip outputs all_sample_vals)))%list.
Proof.
  intros Hmp Hw Hrounds. cbn zeta. unfold _save_viz. rewrite ST_bind_eq.
  destruct (viz_rounds_complete self argmins collision_mats tag _ ps s Hrounds)
    as (s1 & Hrun & Hdirs & Hplot & _). rewrite Hrun, Hmp.
  unfold plot_in_pool. rewrite decide_True by done. by cbn.
Qed.
End VizFacts.

(** ** Checkpoints: the other paths *)

(** A checkpoint that does not have both ['model_dict'] and ['epoch'] is
    left as it is; the epoch is then read for printing, which raises
    [KeyError] when there is none. *)
Theorem load_checkpoint_passes_through (checkpoint : gmap string pyval) :
  checkpoint !! "model_dict" = None ∨ checkpoint !! "epoch" = None →
  on_load_checkpoint checkpoint
  = (checkpoint,
     match checkpoint !! "epoch" with
     | Some epoch => Ok epoch
     | None => Raise (KeyError "epoch")
     end).
Proof.
  intros Hmissing. unfold on_load_checkpoint. rewrite ST_bind_eq. unfold get_state.
  cbv beta iota. rewrite bool_decide_eq_false_2.
  - rewrite bind_ret. unfold dict_get. by destruct (checkpoint !! "epoch").
  - intros [[? Hmd] [? Hep]]. destruct Hmissing; congruence.
Qed.

Lemma load_checkpoint_guard (checkpoint : gmap string pyval) model_dict epoch :
  checkpoint !! "model_dict" = Some (PDict model_dict) →
  checkpoint !! "epoch" = Some epoch →
  on_load_checkpoint checkpoint
  = ((dict_get "scheduler_dict"
        ≫= (fun scheduler_dict =>
              (dict_store "lr_schedulers" (PList [scheduler_dict])
               ≫= (fun _ => dict_get "opt_dict"
               ≫= (fun opt_dict =>
                     dict_store "optimizer_states" (PList [opt_dict]))))
              ≫= (fun _ => dict_get "epoch")))
       (<["global_step" := PNone]>
          (<["state_dict" := PDict (kmap (String.append "model.") model_dict)]>
             checkpoint))).
Proof.
  intros Hmd Hep. unfold on_load_checkpoint. rewrite ST_bind_eq. unfold get_state.
  cbv beta iota. rewrite bool_decide_eq_true_2 by (rewrite Hmd, Hep; eauto).
  rewrite !ST_bind_assoc, (dict_get_bind _ _ _ _ Hmd).
  rewrite ST_bind_assoc, bind_lift. cbn [dict_items].
  rewrite !ST_bind_assoc, dict_store_bind, !ST_bind_assoc, dict_store_bind.
  by rewrite ?ST_bind_assoc.
Qed.

Lemma load_checkpoint_complete (checkpoint : gmap string pyval)
    model_dict epoch scheduler_dict opt_dict :
  checkpoint !! "model_dict" = Some (PDict model_dict) →
  checkpoint !! "epoch" = Some epoch →
  checkpoint !! "scheduler_dict" = Some scheduler_dict →
  checkpoint !! "opt_dict" = Some opt_dict →
  on_load_checkpoint checkpoint
  = (<["optimizer_states" := PList [opt_dict]]>
       (<["lr_schedulers" := PList [scheduler_dict]]>
          (<["global_step" := PNone]>
             (<["state_dict" := PDict (kmap (String.append "model.") model_dict)]>
                checkpoint))),
     Ok epoch).
Proof.
  intros Hmd Hep Hsd Hod. rewrite (load_checkpoint_guard _ _ _ Hmd Hep).
  rewrite (dict_get_bind _ scheduler_dict) by by rewrite !lookup_insert_ne.
  rewrite !ST_bind_assoc, dict_store_bind.
  rewrite !ST_bind_assoc, (dict_get_bind _ opt_dict) by by rewrite !lookup_insert_ne.
  rewrite dict_store_bind. unfold dict_get.
  by rewrite !lookup_insert_ne, Hep.
Qed.

(** The lookups behind the guard are not guarded themselves: without
    ['scheduler_dict'] the call raises [KeyError] when ['state_dict'] and
    ['global_step'] are already written; without ['opt_dict'] it raises
    when ['lr_schedulers'] is written as well. *)
Theorem load_checkpoint_stops_half_way (checkpoint : gmap string pyval)
    model_dict epoch :
  checkpoint !! "model_dict" = Some (PDict model_dict) →
  checkpoint !! "epoch" = Some epoch →
  let started :=
    <["global_step" := PNone]>
      (<["state_dict" := PDict (kmap (String.append "model.") model_dict)]>
         checkpoint) in
  (checkpoint !! "scheduler_dict" = None →
   on_load_checkpoint checkpoint = (started, Raise (KeyError "scheduler_dict")))
  ∧ (∀ scheduler_dict,
       checkpoint !! "scheduler_dict" = Some scheduler_dict →
       checkpoint !! "opt_dict" = None →
       on_load_checkpoint checkpoint
       = (<["lr_schedulers" := PList [scheduler_dict]]> started,
          Raise (KeyError "opt_dict"))).
Proof.
  intros Hmd Hep. cbn zeta. rewrite (load_checkpoint_guard _ _ _ Hmd Hep). split.
  - intros Hsd. rewrite ST_bind_eq. unfold dict_get at 1.
    by rewrite !lookup_insert_ne, Hsd.
  - intros scheduler_dict Hsd Hod.
    rewrite (dict_get_bind _ scheduler_dict) by by rewrite !lookup_insert_ne.
    rewrite !ST_bind_assoc, dict_store_bind, !ST_bind_assoc, ST_bind_eq.
    unfold dict_get at 1. by rewrite !lookup_insert_ne, Hod.
Qed.

(** Loading is idempotent on a complete legacy checkpoint: the adapted
    dictionary still holds the legacy entries, and adapting it again gives
    the same dictionary and the same epoch. *)
Theorem load_checkpoint_idempotent (checkpoint : gmap string pyval)
    model_dict epoch scheduler_dict opt_dict :
  checkpoint !! "model_dict" = Some (PDict model_dict) →
  checkpoint !! "epoch" = Some epoch →
  checkpoint !! "scheduler_dict" = Some scheduler_dict →
  checkpoint !! "opt_dict" = Some opt_dict →
  on_load_checkpoint (on_load_checkpoint checkpoint).1
  = on_load_checkpoint checkpoint.
Proof.
  intros Hmd Hep Hsd Hod.
  rewrite (load_checkpoint_complete _ _ _ _ _ Hmd Hep Hsd Hod). cbn [fst].
  set (adapted := <["optimizer_states" := _]> _).
  rewrite (load_checkpoint_complete adapted model_dict epoch scheduler_dict opt_dict);
    [|subst adapted; by rewrite !lookup_insert_ne..].
  f_equal. subst adapted. apply map_eq. intros k.
  rewrite !lookup_insert. repeat case_decide; by simplify_eq.
Qed.

(** ** The CPU share *)

(** With at least one device and at most 100000 CPUs, the CPU share is the
    integer quotient [cpu_count // devices], except when [devices] divides
    a positive [cpu_count]: then the [1e-5] in the divisor makes it one
    less. *)
Theorem cpu_share_value (cpu_count d : Z) :
  (1 ≤ d)%Z → (0 ≤ cpu_count ≤ 100000)%Z →
  cpu_share cpu_count d
  = if decide (0 < cpu_count ∧ cpu_count mod d = 0)%Z
    then (cpu_count / d - 1)%Z
    else (cpu_count / d)%Z.
Proof.
  intros Hd Hc. case_decide as Hcase.
  - destruct Hcase as [Hpos Hr]. apply cpu_share_divisible; [done|lia|done].
  - apply cpu_share_indivisible; [done|done|lia].
Qed.

Lemma cpu_share_negative_devices (cpu_count d : Z) :
  (0 ≤ cpu_count)%Z → (d ≤ -1)%Z → (cpu_share cpu_count d ≤ 0)%Z.
Proof.
  intros Hc Hd. unfold cpu_share, Qtrunc.
  set (D := (inject_Z d + (1 # 100000))%Q).
  assert (inject_Z cpu_count / D <= 0)%Q as Hq.
  { subst D. unfold Qle, Qdiv, Qmult, Qinv, Qplus, inject_Z.
    cbn [Qnum Qden]. destruct (d * 100000 + 1 * 1)%Z as [|n|n] eqn:E;
      cbn [Qnum Qden]; lia. }
  destruct (Qle_bool 0 (inject_Z cpu_count / D)).
  - change 0%Z with (Qfloor 0). by apply Qfloor_resp_le.
  - change 0%Z with (Qceiling 0). by apply Qceiling_resp_le.
Qed.

Section MoreTrainerFacts.
Context {num tensor pyobj : Type} `{!Numeric num, !Tensor num tensor,
  !External num tensor pyobj}.

Local Abbreviation step_output := (step_output num tensor).
Local Abbreviation state := (@state num tensor pyobj).
Local Abbreviation trainer := (@trainer num).
Implicit Types (self : trainer) (s : state) (outputs : list step_output).

(** A negative number of devices (such as -1) gives a trainer without
    workers: with [args.mp] set, every epoch end raises [ValueError]. *)
Theorem epoch_end_negative_devices self (cpu_count d : Z) outputs mode s :
  num_workers self = init_num_workers cpu_count (args self) →
  devices (args self) = Some d → (d ≤ -1)%Z → (0 ≤ cpu_count)%Z →
  mp (args self) = true →
  (num_workers self ≤ 0)%Z
  ∧ _epoch_end self outputs mode s = (s, Raise ValueError).
Proof.
  intros Hinit Hdev Hd Hc Hmp.
  assert (num_workers self ≤ 0)%Z as Hw.
  { rewrite Hinit. unfold init_num_workers. rewrite Hdev.
    pose proof (cpu_share_negative_devices cpu_count d Hc Hd). lia. }
  split; [done|]. apply epoch_end_pool_refused; [done|lia].
Qed.

(** Whenever [configure_optimizers] returns, it returns one optimizer, the
    Adam optimizer, and one scheduler: the ['lambda'] policy over
    [lr_fix_epochs] and [num_epochs] when [lr_scheduler] is absent or
    ['linear'], the ['step'] policy over [decay_step] and [decay_gamma]
    when it is ['step']. *)
Theorem configure_optimizers_result self optimizers schedulers :
  configure_optimizers self = Ok (optimizers, schedulers) →
  ∃ optimizer scheduler,
    optimizers = [optimizer] ∧ schedulers = [scheduler]
    ∧ torch_optim_Adam (lr (cfg self)) = Ok optimizer
    ∧ ((lr_scheduler (cfg self) = None ∨ lr_scheduler (cfg self) = Some "linear")
       ∧ get_scheduler optimizer "lambda"
           [lr_fix_epochs (cfg self); num_epochs (cfg self)] = Ok scheduler
       ∨ lr_scheduler (cfg self) = Some "step"
         ∧ get_scheduler optimizer "step"
             [decay_step (cfg self); decay_gamma (cfg self)] = Ok scheduler).
Proof.
  unfold configure_optimizers. intros Hrun.
  destruct (torch_optim_Adam (lr (cfg self))) as [optimizer|] eqn:Eopt;
    [|discriminate Hrun].
  cbv zeta in Hrun. cbn [mbind result_bind] in Hrun.
  assert (∀ (r : result pyobj),
    (scheduler ← r; Ok ([optimizer], [scheduler])) = Ok (optimizers, schedulers) →
    ∃ scheduler, r = Ok scheduler ∧ optimizers = [optimizer]
                 ∧ schedulers = [scheduler]) as Hinv.
  { intros [scheduler|e] Hr; [|discriminate Hr].
    exists scheduler. cbn in Hr. by simplify_eq. }
  destruct (lr_scheduler (cfg self)) as [scheduler_type|] eqn:Es;
    cbn [default] in Hrun.
  - case_bool_decide as Hlin; [|case_bool_decide as Hstep].
    + apply Hinv in Hrun as (scheduler & Hg & -> & ->). unfold id in *; subst scheduler_type.
      exists optimizer, scheduler. by eauto 10.
    + apply Hinv in Hrun as (scheduler & Hg & -> & ->). unfold id in *; subst scheduler_type.
      exists optimizer, scheduler. by eauto 10.
    + by apply Hinv in Hrun as (scheduler & Hg & _).
  - rewrite bool_decide_eq_true_2 in Hrun by done.
    apply Hinv in Hrun as (scheduler & Hg & -> & ->).
    exists optimizer, scheduler. by eauto 10.
Qed.
End MoreTrainerFacts.

(** ** The further properties on examples *)

Section MoreExamples.
Import Demo.

Lemma format_zero_timesteps_witness :
  format_agentformer_trajectories demo_traj demo_batch "nuscenes" 0 10%Q true
  = Ok EmptyArray.
Proof.
  apply (format_zero_timesteps demo_traj demo_batch "nuscenes" 10%Q true).
  intros i Hi. destruct i as [|[|i]]; [reflexivity|reflexivity|cbn in Hi; lia].
Defined.

Lemma format_short_mask_witness :
  format_agentformer_trajectories demo_traj short_mask_batch "eth" 2 10%Q true
  = Raise IndexError.
Proof.
  apply (format_short_mask demo_traj short_mask_batch "eth" 2 10%Q true [0]%Q).
  - reflexivity.
  - cbn. lia.
  - intros v Hv. apply elem_of_cons in Hv as [->|Hv]; [reflexivity|].
    by apply elem_of_nil in Hv.
Defined.

Lemma format_generated_datasets_witness :
  format_agentformer_trajectories demo_traj demo_batch "gen" 2 10%Q true
  = Ok (table_of true 17
          (expected_rows demo_batch 2
             (fun i j => placed 13 15 (demo_row i j) (demo_pos i j)))).
Proof.
  apply (format_generated_datasets demo_traj demo_batch "gen" 2 10%Q true 17
           demo_row demo_pos).
  - by left.
  - lia.
  - intros i Hi. destruct i as [|[|i]]; [reflexivity|reflexivity|cbn in Hi; lia].
  - intros i tid j Hi Hp Hj.
    destruct i as [|[|i]]; [|vm_compute in Hp; discriminate Hp|discriminate Hi].
    injection Hi as <-.
    destruct j as [|[|j]]; [| |lia].
    + exists (eth_frame 11). by vm_compute.
    + exists (eth_frame 12). by vm_compute.
Defined.


Lemma format_missing_track_raises_witness :
  is_ok (format_agentformer_trajectories demo_traj stray_batch "eth" 2 10%Q true)
  = false.
Proof.
  apply (format_missing_track_raises demo_traj stray_batch "eth" 2 10%Q true
           1 3%Q 0 (eth_frame 11)).
  - reflexivity.
  - reflexivity.
  - lia.
  - reflexivity.
  - by vm_compute.
Defined.

Lemma test_step_saves_files_witness :
  ∃ f0 fg fo s1 return_dict,
    _step (External0 := demo_external 12) (saving_trainer "eth") long_batch
      "test" empty_state = (s1, Ok return_dict)
    ∧ test_step (External0 := demo_external 12) (saving_trainer "eth")
        long_batch 0 empty_state
      = (add_saved
           [(traj_file_of (saving_trainer "eth") long_batch (SampleFile 0), f0);
            (traj_file_of (saving_trainer "eth") long_batch GtFile, fg);
            (traj_file_of (saving_trainer "eth") long_batch ObsFile, fo)] s1,
         Ok return_dict).
Proof.
  pose (data := {| total_loss := 1%Q;
                   loss_dict := [("mse", 1%Q)];
                   fut_motion := still 2 12;
                   infer_dec_motion :=
                     Arr (replicate 2 (Arr [Arr (replicate 12 (point 0 0))]));
                   pre_motion := still 2 12 |} : model_output Q nd).
  pose (samples := t_unstack (t_transpose (t_scale 2%Q (infer_dec_motion data)))).
  pose (sample := hd (Arr []) samples).
  assert (samples = [sample]) as Hsamples by (vm_compute; reflexivity).
  destruct (format_agentformer_trajectories (t_trajectory sample) long_batch
              "eth" 12 10%Q true) as [f0|e] eqn:H0;
    [|vm_compute in H0; discriminate H0].
  destruct (format_agentformer_trajectories
              (t_trajectory (t_scale 2%Q (t_transpose (fut_motion data))))
              long_batch "eth" 12 10%Q true) as [fg|e] eqn:Hg;
    [|vm_compute in Hg; discriminate Hg].
  destruct (format_agentformer_trajectories
              (t_trajectory (t_transpose (t_scale 2%Q (pre_motion data))))
              long_batch "eth" 8 10%Q false) as [fo|e] eqn:Ho;
    [|vm_compute in Ho; discriminate Ho].
  exists f0, fg, fo.
  apply (test_step_saves_files (External0 := demo_external 12)
           (saving_trainer "eth") long_batch 0 empty_state data [f0] fg fo).
  - reflexivity.
  - reflexivity.
  - change (Forall2 (fun smp f =>
              format_agentformer_trajectories (t_trajectory smp) long_batch
                "eth" 12 10%Q true = Ok f) samples [f0]).
    rewrite Hsamples. by repeat constructor.
  - exact Hg.
  - exact Ho.
Defined.

Lemma test_step_keeps_earlier_files_witness :
  ∃ f0 fg s1 return_dict,
    _step (External0 := demo_external 12) (saving_trainer "eth") short_past_batch
      "test" empty_state = (s1, Ok return_dict)
    ∧ test_step (External0 := demo_external 12) (saving_trainer "eth")
        short_past_batch 0 empty_state
      = (add_saved
           [(traj_file_of (saving_trainer "eth") short_past_batch (SampleFile 0), f0);
            (traj_file_of (saving_trainer "eth") short_past_batch GtFile, fg)] s1,
         Raise IndexError).
Proof.
  pose (data := {| total_loss := 1%Q;
                   loss_dict := [("mse", 1%Q)];
                   fut_motion := still 2 12;
                   infer_dec_motion :=
                     Arr (replicate 2 (Arr [Arr (replicate 12 (point 0 0))]));
                   pre_motion := still 2 12 |} : model_output Q nd).
  pose (samples := t_unstack (t_transpose (t_scale 2%Q (infer_dec_motion data)))).
  pose (sample := hd (Arr []) samples).
  assert (samples = [sample]) as Hsamples by (vm_compute; reflexivity).
  destruct (format_agentformer_trajectories (t_trajectory sample) short_past_batch
              "eth" 12 10%Q true) as [f0|e] eqn:H0;
    [|vm_compute in H0; discriminate H0].
  destruct (format_agentformer_trajectories
              (t_trajectory (t_scale 2%Q (t_transpose (fut_motion data))))
              short_past_batch "eth" 12 10%Q true) as [fg|e] eqn:Hg;
    [|vm_compute in Hg; discriminate Hg].
  exists f0, fg.
  apply (test_step_keeps_earlier_files (External0 := demo_external 12)
           (saving_trainer "eth") short_past_batch 0 empty_state data [f0] fg
           IndexError).
  - reflexivity.
  - reflexivity.
  - change (Forall2 (fun smp f =>
              format_agentformer_trajectories (t_trajectory smp) short_past_batch
                "eth" 12 10%Q true = Ok f) samples [f0]).
    rewrite Hsamples. by repeat constructor.
  - exact Hg.
  - by vm_compute.
Defined.

Lemma test_step_unsupported_dataset_witness :
  ∃ s1 return_dict,
    _step (External0 := demo_external 12) (saving_trainer "nuscenes") demo_batch
      "test" empty_state = (s1, Ok return_dict)
    ∧ saved s1 = []
    ∧ test_step (External0 := demo_external 12) (saving_trainer "nuscenes")
        demo_batch 0 empty_state = (s1, Raise NotImplementedError).
Proof.
  eapply (test_step_unsupported_dataset (External0 := demo_external 12)
            (saving_trainer "nuscenes") demo_batch 0 empty_state).
  - reflexivity.
  - reflexivity.
  - unfold position_datasets. intros Hin.
    repeat (apply elem_of_cons in Hin as [Hin|Hin]; [discriminate Hin|]).
    by apply elem_of_nil in Hin.
  - reflexivity.
  - exists 0, 1%Q. by vm_compute.
  - exists (eth_frame 11). split; [reflexivity|]. cbn. lia.
Defined.

Lemma epoch_end_without_worker_witness :
  _epoch_end (External0 := demo_external 2) (demo_trainer true 0)
    [demo_output 2 8] "test" empty_state
  = (empty_state, Raise ValueError).
Proof.
  apply (epoch_end_without_worker (External0 := demo_external 2)
           (demo_trainer true 0) [demo_output 2 8] "test" empty_state).
  - reflexivity.
  - by vm_compute.
Defined.

Lemma epoch_end_first_failure_witness :
  _epoch_end (External0 := demo_external 2) (demo_trainer false 2)
    [demo_output 2 8; demo_output 0 8; demo_output 3 8] "test" empty_state
  = (empty_state, Raise (ExternalError "no agent")).
Proof.
  apply (epoch_end_first_failure (External0 := demo_external 2)
           (demo_trainer false 2)
           [demo_output 2 8; demo_output 0 8; demo_output 3 8] "test"
           empty_state 1 (demo_output 0 8)).
  - reflexivity.
  - reflexivity.
  - reflexivity.
  - intros k o' Hk Ho'. destruct k as [|k]; [|lia]. injection Ho' as <-.
    reflexivity.
Defined.

Lemma epoch_end_only_logs_witness :
  printed (_epoch_end (External0 := demo_external 2) (demo_trainer false 2)
             [demo_output 2 8] "val" empty_state).1
  = [].
Proof.
  destruct (epoch_end_only_logs (External0 := demo_external 2)
              (demo_trainer false 2) [demo_output 2 8] "val" empty_state)
    as (_ & _ & _ & Hprinted).
  apply Hprinted. discriminate.
Defined.

Lemma aggregate_metrics_truncates_witness :
  is_Some (dict_lookup "FDE"
             (aggregate_metrics (External0 := demo_external 2)
                [[1; 2; 3; 4]; [5; 6]]%Q [2; 3]))
  ∧ ¬ is_Some (dict_lookup "ADE_joint"
                 (aggregate_metrics (External0 := demo_external 2)
                    [[1; 2; 3; 4]; [5; 6]]%Q [2; 3])).
Proof.
  assert (NoDup demo_stats_keys) as Hkeys.
  { apply (bool_decide_unpack _). by vm_compute. }
  split.
  - apply (aggregate_metrics_truncates (External0 := demo_external 2)
             [[1; 2; 3; 4]; [5; 6]]%Q [2; 3] 1 "FDE" Hkeys);
      [discriminate|reflexivity|].
    repeat constructor.
  - intros Hsome.
    apply (aggregate_metrics_truncates (External0 := demo_external 2)
             [[1; 2; 3; 4]; [5; 6]]%Q [2; 3] 2 "ADE_joint" Hkeys) in Hsome;
      [|discriminate|reflexivity].
    apply Forall_cons in Hsome as [_ Hsome].
    apply Forall_cons in Hsome as [Hlen _]. cbn in Hlen. lia.
Defined.

Lemma save_viz_plots_all_witness :
  let r := _save_viz (External0 := demo_external 2) (demo_trainer false 2)
             [demo_output 2 8; demo_output 3 8] ["sample_vals"; "sample_vals"]
             [] [] [] "val" empty_state in
  r.2 = Ok tt
  ∧ plotted r.1 = ["agentformer_val_biwi_eth"; "agentformer_val_biwi_eth"]
  ∧ length (made_dirs r.1) = 2.
Proof.
  destruct (save_viz_plots_all (External0 := demo_external 2)
              (demo_trainer false 2) [demo_output 2 8; demo_output 3 8]
              ["sample_vals"; "sample_vals"] [] [] [] "val" empty_state
              ["agentformer_val_biwi_eth"; "agentformer_val_biwi_eth"])
    as (Hok & Hplotted & Hdirs).
  - discriminate.
  - repeat constructor; by exists "arrays".
  - by repeat constructor.
  - cbn zeta. split; [exact Hok|]. split; [exact Hplotted|]. by rewrite Hdirs.
Defined.

Lemma save_viz_without_worker_witness :
  let r := _save_viz (External0 := demo_external 2) (demo_trainer true 0)
             [demo_output 2 8] ["sample_vals"] [] [] [] "val" empty_state in
  r.2 = Raise ValueError ∧ plotted r.1 = [] ∧ length (made_dirs r.1) = 1.
Proof.
  destruct (save_viz_without_worker (External0 := demo_external 2)
              (demo_trainer true 0) [demo_output 2 8] ["sample_vals"] [] [] []
              "val" empty_state ["agentformer_val_biwi_eth"])
    as (Hraise & Hplotted & Hdirs).
  - reflexivity.
  - by vm_compute.
  - repeat constructor. by exists "arrays".
  - cbn zeta. split; [exact Hraise|]. split; [exact Hplotted|]. by rewrite Hdirs.
Defined.

Lemma load_checkpoint_passes_through_witness :
  on_load_checkpoint model_only_checkpoint
  = (model_only_checkpoint, Raise (KeyError "epoch")).
Proof.
  apply (load_checkpoint_passes_through model_only_checkpoint).
  right. reflexivity.
Defined.

Lemma load_checkpoint_stops_half_way_witness :
  on_load_checkpoint bare_checkpoint
  = (<["global_step" := PNone]>
       (<["state_dict" := PDict (kmap (String.append "model.") {[ "w" := PObj 0 ]})]>
          bare_checkpoint),
     Raise (KeyError "scheduler_dict")).
Proof.
  apply (load_checkpoint_stops_half_way bare_checkpoint {[ "w" := PObj 0 ]} (PInt 5));
    by vm_compute.
Defined.

Lemma load_checkpoint_idempotent_witness :
  on_load_checkpoint (on_load_checkpoint legacy_checkpoint).1
  = on_load_checkpoint legacy_checkpoint.
Proof.
  apply (load_checkpoint_idempotent legacy_checkpoint {[ "w" := PObj 0 ]}
           (PInt 5) (PObj 1) (PObj 2)); by vm_compute.
Defined.

Lemma cpu_share_value_witness :
  cpu_share 8 2 = 3%Z ∧ cpu_share 8 3 = 2%Z.
Proof.
  split.
  - rewrite (cpu_share_value 8 2) by lia. reflexivity.
  - rewrite (cpu_share_value 8 3) by lia. reflexivity.
Defined.

Lemma epoch_end_negative_devices_witness :
  (num_workers all_devices_trainer ≤ 0)%Z
  ∧ _epoch_end (External0 := demo_external 2) all_devices_trainer
      [demo_output 2 8] "val" empty_state
    = (empty_state, Raise ValueError).
Proof.
  apply (epoch_end_negative_devices (External0 := demo_external 2)
           all_devices_trainer 8 (-1) [demo_output 2 8] "val" empty_state).
  - reflexivity.
  - reflexivity.
  - lia.
  - lia.
  - reflexivity.
Defined.

Lemma configure_optimizers_result_witness :
  ∃ optimizer scheduler,
    configure_optimizers (External0 := demo_external 2) (demo_trainer false 2)
    = Ok ([optimizer], [scheduler])
    ∧ get_scheduler (External := demo_external 2) optimizer "lambda" [10; 50]%Q
      = Ok scheduler.
Proof.
  destruct (configure_optimizers_result (External0 := demo_external 2)
              (demo_trainer false 2) ["adam"] ["lambda"] eq_refl)
    as (optimizer & scheduler & Ho & Hs & _ & [[_ Hg]|[Hstep _]]).
  - exists optimizer, scheduler. simplify_eq. by split.
  - discriminate Hstep.
Defined.
End MoreExamples.
